(** * AI Portfolio Builder backend: a shallow embedding of [main.py]

    The development follows the layout of the Python module:
    - strings and JSON-like values with the builtins the handlers use;
    - a small state-and-exception monad for the handlers, whose state is
      the part of the outside world they touch (the HTTP provider and the
      document store);
    - the text-generation client [call_llm];
    - the generation endpoint [generate_portfolio];
    - the persistence endpoints [save_portfolio], [get_portfolio] and
      [public_portfolio];
    - the properties of these functions. *)

From Stdlib Require Import ZArith NArith Strings.String Strings.Ascii.
From stdpp Require Import base option list gmap.

Set Default Proof Using "Type".
Set Warnings "-register-all".

(** ** Python strings

    A Python [str] is a sequence of Unicode code points.  Literals of the
    source that are plain ASCII are written with [str]; the bullet of the
    strip set is given by its code point. *)

Abbreviation pystr := (list N).

Definition str (s : string) : pystr :=
  (λ a, N_of_ascii a) <$> list_ascii_of_string s.

(** ["\n"] *)
Definition NL : pystr := [10%N].

(** U+2022, the bullet of ["- • "] *)
Definition BULLET : N := 8226%N.

(** [str.isspace] for one code point: the code points CPython's
    [str.strip()] removes when called without argument. *)
Definition isspace (c : N) : bool :=
  ((9 <=? c) && (c <=? 13) || (28 <=? c) && (c <=? 32) || (c =? 133) ||
   (c =? 160) || (c =? 5760) || (8192 <=? c) && (c <=? 8202) ||
   (c =? 8232) || (c =? 8233) || (c =? 8239) || (c =? 8287) ||
   (c =? 12288))%N.

(** [s.lstrip], [s.rstrip] and [s.strip] for a set of code points given
    as a predicate. *)
Fixpoint lstrip_by (p : N → bool) (s : pystr) : pystr :=
  match s with
  | [] => []
  | c :: s' => if p c then lstrip_by p s' else s
  end.

Definition rstrip_by (p : N → bool) (s : pystr) : pystr :=
  reverse (lstrip_by p (reverse s)).

Definition strip_by (p : N → bool) (s : pystr) : pystr :=
  rstrip_by p (lstrip_by p s).

(** [s.strip()] *)
Definition strip (s : pystr) : pystr := strip_by isspace s.

(** [s.strip(chars)] *)
Definition in_chars (chars : pystr) (c : N) : bool :=
  existsb (N.eqb c) chars.

Definition strip_chars (chars s : pystr) : pystr :=
  strip_by (in_chars chars) s.

(** [s.startswith(p)] *)
Fixpoint startswith (p s : pystr) : bool :=
  match p, s with
  | [], _ => true
  | _ :: _, [] => false
  | a :: p', b :: s' => (a =? b)%N && startswith p' s'
  end.

(** [sep.join(parts)] *)
Fixpoint join (sep : pystr) (parts : list pystr) : pystr :=
  match parts with
  | [] => []
  | [x] => x
  | x :: rest => x ++ sep ++ join sep rest
  end.

(** The scan of [s.split(sep)] for a non-empty [sep]: left to right,
    non-overlapping.  [cur] holds the current piece in reverse; [skip]
    counts the code points of a separator just matched that are still to
    be stepped over. *)
Fixpoint split_scan (sep : pystr) (skip : nat) (cur : pystr) (s : pystr)
  : list pystr :=
  match s with
  | [] => [reverse cur]
  | c :: s' =>
      match skip with
      | S k => split_scan sep k cur s'
      | O =>
          if startswith sep s
          then reverse cur :: split_scan sep (length sep - 1) [] s'
          else split_scan sep 0 (c :: cur) s'
      end
  end.

(** ** Exceptions and results *)

Inductive exn : Type :=
| HTTPException (status_code : Z) (detail : pystr)
| AttributeError
| KeyError
| IndexError
| TypeError
| ValueError
| ValidationError
| RequestException
| JSONDecodeError
| StoreFailure.

Inductive result (A : Type) : Type :=
| Ok (a : A)
| Raise (e : exn).
Arguments Ok {A} a.
Arguments Raise {A} e.

#[global] Instance result_ret : MRet result := λ A a, Ok a.
#[global] Instance result_bind : MBind result := λ A B f m,
  match m with
  | Ok a => f a
  | Raise e => Raise e
  end.

(** [s.split(sep)]: an empty separator is a [ValueError]. *)
Definition split (sep s : pystr) : result (list pystr) :=
  match sep with
  | [] => Raise ValueError
  | _ :: _ => Ok (split_scan sep 0 [] s)
  end.

(** [xs[i]] on a list, with Python's negative indices. *)
Definition list_getitem {A} (xs : list A) (i : Z) : result A :=
  let j := (if i <? 0 then i + Z.of_nat (length xs) else i)%Z in
  if (j <? 0)%Z then Raise IndexError
  else match xs !! Z.to_nat j with
       | Some x => Ok x
       | None => Raise IndexError
       end.

(** ** JSON-like values

    What [resp.json()] can return, what [model_dump()] produces and what
    the store holds.  A [dict] keeps its insertion order; its keys are
    strings.  A float is [m * 2^e]; only its truth value matters here. *)

Inductive pyval : Type :=
| PyNone
| PyBool (b : bool)
| PyInt (z : Z)
| PyFloat (m e : Z)
| PyStr (s : pystr)
| PyList (l : list pyval)
| PyDict (d : list (pystr * pyval))
| PyObjectId (n : N).

Abbreviation dict := (list (pystr * pyval)).

Definition pystr_eqb (a b : pystr) : bool := bool_decide (a = b).

(** [d.get(k)] on the entries of a dict, [None] of [option] when absent. *)
Fixpoint dict_get (k : pystr) (d : dict) : option pyval :=
  match d with
  | [] => None
  | (k', v) :: d' => if pystr_eqb k k' then Some v else dict_get k d'
  end.

(** [d[k] = v]: replaces the value in place, or appends the new key. *)
Fixpoint dict_set (k : pystr) (v : pyval) (d : dict) : dict :=
  match d with
  | [] => [(k, v)]
  | (k', v') :: d' =>
      if pystr_eqb k k' then (k, v) :: d' else (k', v') :: dict_set k v d'
  end.

(** Truth value of a Python object. *)
Definition truthy (v : pyval) : bool :=
  match v with
  | PyNone => false
  | PyBool b => b
  | PyInt z => negb (z =? 0)%Z
  | PyFloat m _ => negb (m =? 0)%Z
  | PyStr s => negb (bool_decide (s = []))
  | PyList l => negb (bool_decide (length l = 0))
  | PyDict d => negb (bool_decide (length d = 0))
  | PyObjectId _ => true
  end.

Definition isinstance_dict (v : pyval) : bool :=
  match v with PyDict _ => true | _ => false end.

(** [v.get(k)]: only a dict has the method. *)
Definition py_get (v : pyval) (k : pystr) : result pyval :=
  match v with
  | PyDict d => Ok (default PyNone (dict_get k d))
  | _ => Raise AttributeError
  end.

(** [v[k]] with a string key. *)
Definition getitem_key (v : pyval) (k : pystr) : result pyval :=
  match v with
  | PyDict d =>
      match dict_get k d with Some x => Ok x | None => Raise KeyError end
  | _ => Raise TypeError
  end.

(** [v[i]] with an integer index.  The keys of a dict are strings here,
    so an integer is never one of them. *)
Definition getitem_int (v : pyval) (i : Z) : result pyval :=
  match v with
  | PyList l => list_getitem l i
  | PyStr s => c ← list_getitem s i; mret (PyStr [c])
  | PyDict _ => Raise KeyError
  | _ => Raise TypeError
  end.

(** [v.split(sep)]: only a [str] has the method. *)
Definition py_split (v : pyval) (sep : pystr) : result (list pystr) :=
  match v with
  | PyStr s => split sep s
  | _ => Raise AttributeError
  end.

(** Structural equality of values, as an exact-match filter compares. *)
Fixpoint pyval_eqb (a b : pyval) : bool :=
  match a, b with
  | PyNone, PyNone => true
  | PyBool x, PyBool y => bool_decide (x = y)
  | PyInt x, PyInt y => (x =? y)%Z
  | PyFloat m1 e1, PyFloat m2 e2 => (m1 =? m2)%Z && (e1 =? e2)%Z
  | PyStr x, PyStr y => pystr_eqb x y
  | PyList l1, PyList l2 =>
      (fix go (l1 l2 : list pyval) : bool :=
         match l1, l2 with
         | [], [] => true
         | x :: l1', y :: l2' => pyval_eqb x y && go l1' l2'
         | _, _ => false
         end) l1 l2
  | PyDict d1, PyDict d2 =>
      (fix go (d1 d2 : dict) : bool :=
         match d1, d2 with
         | [], [] => true
         | (k1, x) :: d1', (k2, y) :: d2' =>
             pystr_eqb k1 k2 && pyval_eqb x y && go d1' d2'
         | _, _ => false
         end) d1 d2
  | PyObjectId x, PyObjectId y => (x =? y)%N
  | _, _ => false
  end.

(** ** The outside world and the handler monad

    A handler reads the process environment and talks to two outside
    parties: the HTTP text-generation provider and the document store.
    What they answer is not the program's to decide, so it is given by
    the environment: [requests_post n req] is the outcome of the [n]-th
    HTTP request of the process, [delete_raises n] tells whether the
    [n]-th deletion attempt raises. *)

Record Request : Type := mkRequest {
  req_url : pystr;
  req_headers : list (pystr * pystr);
  req_json : pyval;
}.

(** A [requests.Response]: the [ok] flag and what [json()] does. *)
Record Response : Type := mkResponse {
  ok : bool;
  json : result pyval;
}.

Record Env : Type := mkEnv {
  AI_PROVIDER_URL : option pystr;   (* os.getenv("AI_API_URL") *)
  AI_API_KEY : option pystr;        (* os.getenv("AI_API_KEY") *)
  requests_post : nat → Request → result Response;
  delete_raises : nat → bool;
}.

Record World : Type := mkWorld {
  http_calls : nat;
  delete_calls : nat;
  collections : gmap pystr (list dict);
  next_oid : N;
}.

Definition M (A : Type) : Type := World → result A * World.

#[global] Instance M_ret : MRet M := λ A a w, (Ok a, w).
#[global] Instance M_bind : MBind M := λ A B f m w,
  match m w with
  | (Ok a, w') => f a w'
  | (Raise e, w') => (Raise e, w')
  end.

Definition raise {A} (e : exn) : M A := λ w, (Raise e, w).

Definition lift {A} (r : result A) : M A := λ w, (r, w).

(** [try: body except Exception: handler] *)
Definition try_except {A} (body handler : M A) : M A := λ w,
  match body w with
  | (Ok a, w') => (Ok a, w')
  | (Raise _, w') => handler w'
  end.

(** Truth value of an [Optional[str]] read from the environment. *)
Definition opt_truthy (o : option pystr) : bool :=
  match o with
  | None => false
  | Some s => negb (bool_decide (s = []))
  end.

(** ** The text-generation client *)

Section Client.
Context (env : Env).

(** [requests.post(url, headers=..., json=...)] *)
Definition post (req : Request) : M Response := λ w,
  (requests_post env (http_calls w) req,
   mkWorld (S (http_calls w)) (delete_calls w) (collections w)
           (next_oid w)).

(** The request [call_llm] sends for a prompt. *)
Definition llm_request (prompt : pystr) : Request :=
  mkRequest
    (default [] (AI_PROVIDER_URL env))
    [(str "Authorization", str "Bearer " ++ default [] (AI_API_KEY env));
     (str "Content-Type", str "application/json")]
    (PyDict [(str "prompt", PyStr prompt); (str "max_tokens", PyInt 600)]).

Definition call_llm (prompt : pystr) : M pyval :=
  if opt_truthy (AI_PROVIDER_URL env) && opt_truthy (AI_API_KEY env) then
    try_except
      (resp ← post (llm_request prompt);
       let unavailable : M pyval :=
         mret (PyStr (str "Draft (AI service unavailable): "
                      ++ take 280 prompt ++ str "...")) in
       if ok resp then
         data ← lift (json resp);
         has_text ← (if isinstance_dict data
                     then text ← lift (py_get data (str "text"));
                          mret (truthy text)
                     else mret false);
         if (has_text : bool) then
           lift (getitem_key data (str "text"))
         else
           choices ← lift (py_get data (str "choices"));
           if truthy choices then
             choices ← lift (getitem_key data (str "choices"));
             first ← lift (getitem_int choices 0);
             lift (getitem_key first (str "text"))
           else unavailable
       else unavailable)
      (mret (PyStr (str "Draft (AI error): "
                    ++ take 280 prompt ++ str "...")))
  else
    mret (PyStr (str "Professional, impact-driven candidate. Blends technical depth with clear communication, "
                 ++ str "drives outcomes through projects, internships, and community work. Values clarity, "
                 ++ str "collaboration, and continuous learning.")).

End Client.

(** ** The generation endpoint *)

Module AIGenerateInput.
Record t : Type := mk {
  name : pystr;
  skills : list pystr;
  education : list pystr;
  projects : list pystr;
  experience : list pystr;
  achievements : list pystr;
  contact_email : option pystr;
  tone : pystr;
}.
End AIGenerateInput.

Module AIGenerateResult.
Record t : Type := mk {
  summary : pystr;
  skills : list pystr;
  projects : list dict;
  experience : list dict;
  education : list dict;
  achievements : list pystr;
  contact : dict;
  suggestions : list pystr;
}.

(** The constructor call of the model: [summary] is declared [str], and
    the value handed over comes from [call_llm]; the other arguments
    have their declared types by construction. *)
Definition validate (summary : pyval) (skills : list pystr)
    (projects experience education : list dict)
    (achievements : list pystr) (contact : dict)
    (suggestions : list pystr) : result t :=
  match summary with
  | PyStr s =>
      Ok (mk s skills projects experience education achievements contact
             suggestions)
  | _ => Raise ValidationError
  end.
End AIGenerateResult.

(** [xs or []] *)
Definition or_empty {A} (xs : list A) : list A :=
  match xs with
  | [] => []
  | _ :: _ => xs
  end.

(** [[f x for x in xs]] where [f] may raise. *)
Fixpoint comprehension {A B} (f : A → result B) (xs : list A)
  : result (list B) :=
  match xs with
  | [] => Ok []
  | x :: xs' => y ← f x; ys ← comprehension f xs'; mret (y :: ys)
  end.

(** [{"title": p.split(" - ")[0], "description": p, "impact": ''}] *)
Definition project_struct (p : pystr) : result dict :=
  parts ← split (str " - ") p;
  title ← list_getitem parts 0;
  mret [(str "title", PyStr title);
        (str "description", PyStr p);
        (str "impact", PyStr [])].

(** [{"role": e.split(" at ")[0], "details": e, "achievements": []}] *)
Definition experience_struct (e : pystr) : result dict :=
  parts ← split (str " at ") e;
  role ← list_getitem parts 0;
  mret [(str "role", PyStr role);
        (str "details", PyStr e);
        (str "achievements", PyList [])].

(** [{"program": e, "institution": '', "year": ''}] *)
Definition education_struct (e : pystr) : dict :=
  [(str "program", PyStr e);
   (str "institution", PyStr []);
   (str "year", PyStr [])].

(** [[s.strip("- • ") for s in text.split("\n") if s.strip()][:5]],
    after the split. *)
Definition suggestions_of_lines (lines : list pystr) : list pystr :=
  take 5
    ((strip_chars (str "- " ++ [BULLET] ++ str " ")) <$>
       List.filter (λ s, truthy (PyStr (strip s))) lines).

Section Generate.
Context (env : Env).
Import AIGenerateInput.

Definition generate_portfolio (data : AIGenerateInput.t)
  : M AIGenerateResult.t :=
  let name := strip (name data) in
  if negb (truthy (PyStr name)) then
    raise (HTTPException 400 (str "Name is required"))
  else
    let skills_str :=
      let joined := join (str ", ") (skills data) in
      if truthy (PyStr joined) then joined
      else str "(skills not provided)" in
    let projects_bullets :=
      join NL ((λ p, str "- " ++ p) <$> projects data) in
    let exp_bullets :=
      join NL ((λ e, str "- " ++ e) <$> experience data) in
    let edu_bullets :=
      join NL ((λ e, str "- " ++ e) <$> education data) in
    let summary_prompt :=
      str "Write a " ++ tone data
      ++ str " 3-4 sentence professional summary for " ++ name
      ++ str ". "
      ++ str "Highlight strengths from skills: " ++ skills_str
      ++ str ". Audience: recruiters and hiring managers." in
    summary ← call_llm env summary_prompt;
    let suggestions_prompt :=
      str "Given the user's inputs (skills, projects, experience, education), suggest 5 concise improvements "
      ++ str "that strengthen clarity, impact, and ATS readiness. Use imperative tone." in
    suggestions_text ← call_llm env suggestions_prompt;
    lines ← lift (py_split suggestions_text NL);
    let suggestions := suggestions_of_lines lines in
    projects_struct ← lift (comprehension project_struct (projects data));
    experience_struct ←
      lift (comprehension experience_struct (experience data));
    let education_struct := education_struct <$> education data in
    lift (AIGenerateResult.validate
            summary
            (or_empty (skills data))
            projects_struct
            experience_struct
            education_struct
            (or_empty (achievements data))
            [(str "email", PyStr (default [] (contact_email data)));
             (str "name", PyStr name)]
            suggestions).


End Generate.

(** ** The persistence endpoints *)

Module PortfolioSection.
Record t : Type := mk {
  key : pystr;
  title : pystr;
  content : pyval;
}.

Definition model_dump (s : t) : pyval :=
  PyDict [(str "key", PyStr (key s));
          (str "title", PyStr (title s));
          (str "content", content s)].
End PortfolioSection.

Module SavePortfolioRequest.
Record t : Type := mk {
  owner_email : pystr;
  username : pystr;
  name : pystr;
  theme : pystr;
  dark_mode : bool;
  sections : list PortfolioSection.t;
  seo_title : option pystr;
  seo_description : option pystr;
  assets : dict;
}.

Definition optional (o : option pystr) : pyval :=
  match o with
  | Some s => PyStr s
  | None => PyNone
  end.

Definition model_dump (p : t) : dict :=
  [(str "owner_email", PyStr (owner_email p));
   (str "username", PyStr (username p));
   (str "name", PyStr (name p));
   (str "theme", PyStr (theme p));
   (str "dark_mode", PyBool (dark_mode p));
   (str "sections", PyList (PortfolioSection.model_dump <$> sections p));
   (str "seo_title", optional (seo_title p));
   (str "seo_description", optional (seo_description p));
   (str "assets", PyDict (assets p))].
End SavePortfolioRequest.

(** The documents of a collection, in insertion order; a collection never
    written to is empty. *)
Definition collection (w : World) (c : pystr) : list dict :=
  default [] (collections w !! c).

(** Exact match of a document against a filter: every field of the filter
    is in the document with an equal value. *)
Definition matches (flt doc : dict) : bool :=
  forallb (λ kv, match dict_get kv.1 doc with
                 | Some v => pyval_eqb kv.2 v
                 | None => false
                 end) flt.

Section Store.
Context (env : Env).

(** The builtin [str], left open: the handlers apply it to the identifier
    of a stored document only. *)
Variable builtin_str : pyval → pystr.

(** Modelled from the spec: [database.get_documents] is not part of the
    sources at hand.  It returns the documents of the collection that
    match the filter, in insertion order. *)
Definition get_documents (c : pystr) (flt : dict) : M (list dict) := λ w,
  (Ok (List.filter (matches flt) (collection w c)), w).

(** Modelled from the spec: [database.create_document] is not part of the
    sources at hand.  It writes the document under a generated
    identifier, after the documents already there, and returns the
    identifier. *)
Definition create_document (c : pystr) (doc : dict) : M pystr := λ w,
  let oid := next_oid w in
  (Ok (builtin_str (PyObjectId oid)),
   mkWorld (http_calls w) (delete_calls w)
     (<[c := collection w c ++ [(str "_id", PyObjectId oid) :: doc]]>
        (collections w))
     (N.succ oid)).

(** Modelled from the spec: the store's [delete_many], reached through
    [db.portfolio], is not part of the sources at hand.  It removes every
    matching document, or raises and removes nothing when the
    environment says so. *)
Definition delete_many (c : pystr) (flt : dict) : M unit := λ w,
  if delete_raises env (delete_calls w) then
    (Raise StoreFailure,
     mkWorld (http_calls w) (S (delete_calls w)) (collections w)
             (next_oid w))
  else
    (Ok (),
     mkWorld (http_calls w) (S (delete_calls w))
       (<[c := List.filter (λ d, negb (matches flt d)) (collection w c)]>
          (collections w))
       (next_oid w)).

Import SavePortfolioRequest.

Definition save_portfolio (payload : SavePortfolioRequest.t) : M dict :=
  exists_ ← get_documents (str "portfolio")
              [(str "username", PyStr (username payload))];
  _ ← (if negb (bool_decide (exists_ = [])) then
         try_except
           (delete_many (str "portfolio")
              [(str "username", PyStr (username payload))])
           (mret ())
       else mret ());
  pid ← create_document (str "portfolio") (model_dump payload);
  mret [(str "id", PyStr pid);
        (str "username", PyStr (username payload))].

Definition get_portfolio (username : pystr) : M dict :=
  docs ← get_documents (str "portfolio") [(str "username", PyStr username)];
  if bool_decide (docs = []) then
    raise (HTTPException 404 (str "Portfolio not found"))
  else
    doc ← lift (list_getitem docs (-1));
    mret (dict_set (str "_id")
            (PyStr (builtin_str (default PyNone (dict_get (str "_id") doc))))
            doc).

Definition public_portfolio (username : pystr) : M dict :=
  get_portfolio username.

End Store.

(** An empty store in a process that has made no outside call yet. *)
Definition initial_world : World := mkWorld 0 0 ∅ 0.

(** A rendering of identifiers as 24 hexadecimal digits, as the store's
    identifiers print; other values are not rendered.  It instantiates
    [builtin_str] in the examples. *)
Definition hex_digit (d : N) : N :=
  (if d <? 10 then 48 + d else 87 + d)%N.

Definition oid_hex (n : N) : pystr :=
  (λ i : nat, hex_digit ((n / 16 ^ N.of_nat (23 - i)) mod 16)%N) <$> seq 0 24.

Definition str_of_id (v : pyval) : pystr :=
  match v with
  | PyObjectId n => oid_hex n
  | PyStr s => s
  | PyNone => str "None"
  | _ => []
  end.

(** ** The upload endpoint *)

Module UploadFile.
Record t : Type := mk {
  filename : option pystr;
  content_type : option pystr;
  content : list Byte.byte;     (* what [await file.read()] returns *)
}.
End UploadFile.

(** An [Optional[str]] as a value. *)
Definition py_optional (o : option pystr) : pyval :=
  match o with
  | Some s => PyStr s
  | None => PyNone
  end.

Section Upload.
Variable builtin_str : pyval → pystr.

(** The metadata is all that reaches the store.  [create_document]
    writes its own copy of the dict it is given. *)
Definition upload_file (file : UploadFile.t) : M dict :=
  let content := UploadFile.content file in
  let meta :=
    [(str "filename", py_optional (UploadFile.filename file));
     (str "content_type", py_optional (UploadFile.content_type file));
     (str "size", PyInt (Z.of_nat (length content)))] in
  fid ← create_document builtin_str (str "uploads") meta;
  mret [(str "file_id", PyStr fid); (str "meta", PyDict meta)].

End Upload.

(** ** The diagnostic endpoint *)

(** U+2705 and U+274C, the marks of the diagnostic strings. *)
Definition CHECK_MARK : N := 9989%N.
Definition CROSS_MARK : N := 10060%N.

(** What [test_database] reads: whether [db] is not [None], two
    environment variables, and what [db.list_collection_names()] does,
    the names or an exception with its [str(e)]. *)
Record Diagnostics : Type := mkDiagnostics {
  db_present : bool;
  DATABASE_URL : option pystr;      (* os.getenv("DATABASE_URL") *)
  DATABASE_NAME : option pystr;     (* os.getenv("DATABASE_NAME") *)
  list_collection_names : pystr + list pystr;
}.

(** The [response] dict is updated in place; the only statement of the
    [try] block that can raise is the listing, so the updates before it
    stay when the handler runs. *)
Definition test_database (d : Diagnostics) : dict :=
  let response : dict :=
    [(str "backend", PyStr ([CHECK_MARK] ++ str " Running"));
     (str "database", PyStr ([CROSS_MARK] ++ str " Not Available"));
     (str "database_url", PyNone);
     (str "database_name", PyNone);
     (str "connection_status", PyStr (str "Not Connected"));
     (str "collections", PyList [])] in
  if db_present d then
    let response :=
      dict_set (str "database") (PyStr ([CHECK_MARK] ++ str " Available"))
        response in
    let response :=
      dict_set (str "database_url")
        (PyStr (if opt_truthy (DATABASE_URL d)
                then [CHECK_MARK] ++ str " Set"
                else [CROSS_MARK] ++ str " Not Set"))
        response in
    let response :=
      dict_set (str "database_name")
        (PyStr (if opt_truthy (DATABASE_NAME d)
                then default [] (DATABASE_NAME d)
                else [CROSS_MARK] ++ str " Not Set"))
        response in
    let response :=
      dict_set (str "connection_status") (PyStr (str "Connected")) response in
    match list_collection_names d with
    | inr collections =>
        let response :=
          dict_set (str "collections") (PyList (PyStr <$> take 10 collections))
            response in
        dict_set (str "database")
          (PyStr ([CHECK_MARK] ++ str " Connected & Working")) response
    | inl message =>
        dict_set (str "database")
          (PyStr ([CROSS_MARK] ++ str " Error: " ++ take 80 message)) response
    end
  else response.

(** * Notions used in the statements *)

(** A name is blank when every code point of it is whitespace; the empty
    name is blank. *)
Definition blank (s : pystr) : Prop := Forall (λ c, isspace c = true) s.

(** The two placeholder drafts of [call_llm]. *)
Definition unavailable_draft (prompt : pystr) : pyval :=
  PyStr (str "Draft (AI service unavailable): " ++ take 280 prompt
         ++ str "...").

Definition error_draft (prompt : pystr) : pyval :=
  PyStr (str "Draft (AI error): " ++ take 280 prompt ++ str "...").

(** The world after one HTTP request. *)
Definition sent (w : World) : World :=
  mkWorld (S (http_calls w)) (delete_calls w) (collections w) (next_oid w).

(** What [call_llm] takes from a decoded body, or the exception the
    attempt raises. *)
Definition extract (prompt : pystr) (data : pyval) : result pyval :=
  match data with
  | PyDict d =>
      if truthy (default PyNone (dict_get (str "text") d)) then
        getitem_key data (str "text")
      else if truthy (default PyNone (dict_get (str "choices") d)) then
        choices ← getitem_key data (str "choices");
        first ← getitem_int choices 0;
        getitem_key first (str "text")
      else Ok (unavailable_draft prompt)
  | _ => Raise AttributeError
  end.

(** Both environment variables are set and not empty. *)
Definition configured (env : Env) : Prop :=
  opt_truthy (AI_PROVIDER_URL env) = true ∧
  opt_truthy (AI_API_KEY env) = true.

(** The client keeps the promise of its signature, [-> str]. *)
Definition returns_text (env : Env) : Prop :=
  ∀ prompt w, ∃ s w', call_llm env prompt w = (Ok (PyStr s), w').

(** Environments for the examples. *)
Definition no_provider : Env :=
  mkEnv None None (λ _ _, Raise RequestException) (λ _, false).

Definition provider (answer : nat → Request → result Response) : Env :=
  mkEnv (Some (str "https://llm.example/v1/complete")) (Some (str "sk-test"))
        answer (λ _, false).

Definition provider_refusing : Env :=
  provider (λ _ _, Ok (mkResponse false (Raise JSONDecodeError))).

Definition provider_unreachable : Env :=
  provider (λ _ _, Raise RequestException).

(** [sep] occurs in [s] at offset [i]. *)
Definition occurs_at (sep s : pystr) (i : nat) : Prop :=
  take (length sep) (drop i s) = sep.

(** [t] is the text of [s] before the first occurrence of [sep], or the
    whole of [s] when [sep] does not occur in it. *)
Definition before_first (sep s t : pystr) : Prop :=
  (∃ rest, s = t ++ sep ++ rest ∧ ∀ j, j < length t → ¬ occurs_at sep s j) ∨
  (t = s ∧ ∀ j, ¬ occurs_at sep s j).

(** The same text, computed. *)
Fixpoint upto (sep s : pystr) : pystr :=
  match s with
  | [] => []
  | c :: s' => if startswith sep s then [] else c :: upto sep s'
  end.

(** What [generate_portfolio] builds from the two drafts. *)
Definition assemble (data : AIGenerateInput.t) (summary text : pyval)
  : result AIGenerateResult.t :=
  lines ← py_split text NL;
  AIGenerateResult.validate summary
    (or_empty (AIGenerateInput.skills data))
    ((λ p, [(str "title", PyStr (upto (str " - ") p));
            (str "description", PyStr p);
            (str "impact", PyStr [])]) <$> AIGenerateInput.projects data)
    ((λ e, [(str "role", PyStr (upto (str " at ") e));
            (str "details", PyStr e);
            (str "achievements", PyList [])]) <$> AIGenerateInput.experience data)
    (education_struct <$> AIGenerateInput.education data)
    (or_empty (AIGenerateInput.achievements data))
    [(str "email", PyStr (default [] (AIGenerateInput.contact_email data)));
     (str "name", PyStr (strip (AIGenerateInput.name data)))]
    (suggestions_of_lines lines).

(** The code points [strip("- • ")] removes. *)
Definition bullet_char (c : N) : Prop :=
  c = 45%N ∨ c = 32%N ∨ c = BULLET.

(** A provider that answers every request with [{"text": text}]. *)
Definition provider_answering (text : pystr) : Env :=
  provider (λ _ _, Ok (mkResponse true (Ok (PyDict [(str "text", PyStr text)])))).

(** A provider that answers every request with [{"text": 5}]. *)
Definition provider_answering_number : Env :=
  provider (λ _ _, Ok (mkResponse true (Ok (PyDict [(str "text", PyInt 5)])))).

Definition ada : AIGenerateInput.t :=
  AIGenerateInput.mk (str "Ada") [str "Rocq"; str "OCaml"]
    [str "BSc Mathematics"] [str "Build App - a web app"]
    [str "Engineer at Acme"] [str "Medal"] None (str "professional").

(** The filter of the persistence endpoints, [{"username": u}]. *)
Definition by_username (u : pystr) : dict := [(str "username", PyStr u)].

(** The document the store holds for a payload saved under [oid]. *)
Definition stored (oid : N) (p : SavePortfolioRequest.t) : dict :=
  (str "_id", PyObjectId oid) :: SavePortfolioRequest.model_dump p.

(** The documents of the portfolio collection that a save of [p] leaves
    in place: all of them when none has the username of [p] or when the
    deletion raises, else those with another username. *)
Definition survivors (env : Env) (p : SavePortfolioRequest.t) (w : World)
  : list dict :=
  let coll := collection w (str "portfolio") in
  let flt := by_username (SavePortfolioRequest.username p) in
  if bool_decide (List.filter (matches flt) coll = []) then coll
  else if delete_raises env (delete_calls w) then coll
  else List.filter (λ d, negb (matches flt d)) coll.

(** The world after a sequence of saves. *)
Fixpoint run_saves (env : Env) (builtin_str : pyval → pystr)
    (payloads : list SavePortfolioRequest.t) (w : World) : World :=
  match payloads with
  | [] => w
  | p :: rest =>
      run_saves env builtin_str rest (save_portfolio env builtin_str p w).2
  end.

(** A store whose deletions fail, and two payloads of one username. *)
Definition failing_deletes : Env :=
  mkEnv None None (λ _ _, Raise RequestException) (λ _, true).

Definition ada_v1 : SavePortfolioRequest.t :=
  SavePortfolioRequest.mk (str "ada@example.org") (str "ada") (str "Ada")
    (str "modern") false
    [PortfolioSection.mk (str "summary") (str "About") (PyStr (str "Hello"))]
    None None [].

Definition ada_v2 : SavePortfolioRequest.t :=
  SavePortfolioRequest.mk (str "ada@example.org") (str "ada")
    (str "Ada Lovelace") (str "dark") true
    [PortfolioSection.mk (str "skills") (str "Skills")
       (PyList [PyStr (str "Rocq")])]
    (Some (str "Ada's page")) None [].

Definition bob : SavePortfolioRequest.t :=
  SavePortfolioRequest.mk (str "bob@example.org") (str "bob") (str "Bob")
    (str "minimal") false [] None None [].

(** The store after a first save of [ada_v1] with failing deletions. *)
Definition after_first_save : World :=
  (save_portfolio failing_deletes str_of_id ada_v1 initial_world).2.

(** The prompt of the summary request, as [generate_portfolio] builds
    it. *)
Definition summary_prompt (data : AIGenerateInput.t) : pystr :=
  str "Write a " ++ AIGenerateInput.tone data
  ++ str " 3-4 sentence professional summary for "
  ++ strip (AIGenerateInput.name data)
  ++ str ". "
  ++ str "Highlight strengths from skills: "
  ++ (let joined := join (str ", ") (AIGenerateInput.skills data) in
      if truthy (PyStr joined) then joined
      else str "(skills not provided)")
  ++ str ". Audience: recruiters and hiring managers.".

(** The prompt of the suggestions request. *)
Definition suggestions_prompt : pystr :=
  str "Given the user's inputs (skills, projects, experience, education), suggest 5 concise improvements "
  ++ str "that strengthen clarity, impact, and ATS readiness. Use imperative tone.".


(** More providers for the examples: the completion format, the chat
    format, an empty object and a list. *)
Definition provider_choices : Env :=
  provider (λ _ _,
    Ok (mkResponse true
          (Ok (PyDict [(str "id", PyStr (str "cmpl-1"));
                       (str "choices",
                        PyList [PyDict [(str "text", PyStr (str "Hello"))]])])))).

Definition provider_chat : Env :=
  provider (λ _ _,
    Ok (mkResponse true
          (Ok (PyDict [(str "choices",
                        PyList [PyDict [(str "message",
                                         PyDict [(str "content",
                                                  PyStr (str "Hello"))])]])])))).

Definition provider_empty_object : Env :=
  provider (λ _ _, Ok (mkResponse true (Ok (PyDict [])))).

Definition provider_list : Env :=
  provider (λ _ _, Ok (mkResponse true (Ok (PyList [PyStr (str "Hello")])))).

(** Two inputs that differ in everything the prompts leave out. *)
Definition ada_bare : AIGenerateInput.t :=
  AIGenerateInput.mk ([32; 32]%N ++ str "Ada" ++ [10]%N)
    [str "Rocq"; str "OCaml"] [] [] [] []
    (Some (str "ada@example.org")) (str "professional").

(** Two files with the same name, type and length. *)
Definition file_a : UploadFile.t :=
  UploadFile.mk (Some (str "cv.pdf")) (Some (str "application/pdf"))
    [Byte.x25; Byte.x50; Byte.x44; Byte.x46].

Definition file_b : UploadFile.t :=
  UploadFile.mk (Some (str "cv.pdf")) (Some (str "application/pdf"))
    [Byte.x00; Byte.x01; Byte.x02; Byte.x03].

(** A store that answers, and one whose listing fails. *)
Definition diagnostics_working : Diagnostics :=
  mkDiagnostics true (Some (str "mongodb://localhost:27017"))
    (Some (str "portfolio_db"))
    (inr ((λ i : nat, str "collection" ++ [(48 + N.of_nat i)%N]) <$> seq 0 12)).

Definition diagnostics_failing : Diagnostics :=
  mkDiagnostics true None (Some [])
    (inl (concat (replicate 10 (str "timed out "))
          ++ str "after 30 seconds")).

(** A store that holds two documents for one username, left by a save
    whose deletion failed. *)
Definition duplicated_world : World :=
  (save_portfolio failing_deletes str_of_id ada_v1 after_first_save).2.

(** * Properties *)

(** One step of a handler: expose the first bind of the goal. *)
Ltac step_bind := unfold mbind at 1, M_bind at 1; cbv beta.

(** ** Stripping *)

Section StripFacts.
Context (p : N → bool).

Lemma lstrip_by_suffix s : ∃ pre, s = pre ++ lstrip_by p s ∧ Forall (λ c, p c = true) pre.
Proof.
  induction s as [|c s IH]; simpl.
  - by exists [].
  - destruct (p c) eqn:Hc.
    + destruct IH as (pre & Heq & Hall). exists (c :: pre). split.
      * simpl. by rewrite <- Heq.
      * by constructor.
    + by exists [].
Qed.

Lemma lstrip_by_head s c t : lstrip_by p s = c :: t → p c = false.
Proof.
  induction s as [|a s IH]; simpl; [done|].
  destruct (p a) eqn:Ha; [done|]. by intros [= <- _].
Qed.

Lemma lstrip_by_nil s : lstrip_by p s = [] ↔ Forall (λ c, p c = true) s.
Proof.
  split.
  - intros H. destruct (lstrip_by_suffix s) as (pre & Heq & Hall).
    rewrite H, app_nil_r in Heq. by subst.
  - induction 1 as [|c s Hc _ IH]; simpl; [done|]. by rewrite Hc.
Qed.

Lemma rstrip_by_prefix s : ∃ suf, s = rstrip_by p s ++ suf ∧ Forall (λ c, p c = true) suf.
Proof.
  unfold rstrip_by.
  destruct (lstrip_by_suffix (reverse s)) as (pre & Heq & Hall).
  exists (reverse pre). split.
  - rewrite <- reverse_app, <- Heq. by rewrite reverse_involutive.
  - by apply Forall_reverse.
Qed.

Lemma rstrip_by_last s c t : rstrip_by p s = t ++ [c] → p c = false.
Proof.
  unfold rstrip_by. intros H.
  apply (f_equal reverse) in H. rewrite reverse_involutive, reverse_snoc in H.
  by apply lstrip_by_head in H.
Qed.

Lemma strip_by_head s c t : strip_by p s = c :: t → p c = false.
Proof.
  unfold strip_by. intros H.
  destruct (rstrip_by_prefix (lstrip_by p s)) as (suf & Heq & _).
  rewrite H in Heq. simpl in Heq. by apply lstrip_by_head in Heq.
Qed.

Lemma strip_by_last s c t : strip_by p s = t ++ [c] → p c = false.
Proof. apply rstrip_by_last. Qed.

Lemma strip_by_nil s : strip_by p s = [] ↔ Forall (λ c, p c = true) s.
Proof.
  unfold strip_by. split.
  - intros H.
    destruct (rstrip_by_prefix (lstrip_by p s)) as (suf & Heq & Hsuf).
    rewrite H in Heq. simpl in Heq. subst suf.
    destruct (lstrip_by p s) as [|c t] eqn:E; [by apply lstrip_by_nil|].
    apply lstrip_by_head in E. apply Forall_cons_1 in Hsuf as [Hc _]. congruence.
  - intros H. apply lstrip_by_nil in H. by rewrite H.
Qed.
End StripFacts.

Lemma strip_blank s : strip s = [] ↔ blank s.
Proof. apply strip_by_nil. Qed.

Lemma truthy_str_strip s : truthy (PyStr (strip s)) = false ↔ blank s.
Proof.
  rewrite <- strip_blank. simpl. rewrite negb_false_iff.
  by rewrite bool_decide_eq_true.
Qed.

(** ** The text-generation client *)

Section ClientFacts.
Context (env : Env).

Lemma call_llm_configured prompt w :
  configured env →
  call_llm env prompt w =
    (Ok (match requests_post env (http_calls w) (llm_request env prompt) with
         | Raise _ => error_draft prompt
         | Ok resp =>
             if ok resp then
               match json resp with
               | Raise _ => error_draft prompt
               | Ok data =>
                   match extract prompt data with
                   | Ok v => v
                   | Raise _ => error_draft prompt
                   end
               end
             else unavailable_draft prompt
         end), sent w).
Proof.
  intros [Hu Hk]. unfold call_llm. rewrite Hu, Hk. simpl.
  unfold try_except, mbind, M_bind, post.
  destruct (requests_post env (http_calls w) (llm_request env prompt))
    as [resp|e]; [|done].
  destruct (ok resp); [|done].
  unfold lift. destruct (json resp) as [data|e]; [|done].
  destruct data as [| | | | |l|d|]; try done.
  simpl.
  destruct (truthy (default PyNone (dict_get (str "text") d))).
  { by destruct (dict_get (str "text") d). }
  destruct (truthy (default PyNone (dict_get (str "choices") d))); [|done].
  destruct (dict_get (str "choices") d) as [c|]; [|done].
  simpl. destruct (getitem_int c 0) as [f|]; [|done].
  simpl. by destruct (getitem_key f (str "text")).
Qed.

End ClientFacts.

(** C4.  When the provider URL or the API key is absent, [call_llm]
    returns the fixed fallback paragraph, whatever the prompt, and sends
    nothing. *)
Theorem call_llm_unconfigured_fallback env prompt w :
  AI_PROVIDER_URL env = None ∨ AI_API_KEY env = None →
  call_llm env prompt w =
    (Ok (PyStr (str "Professional, impact-driven candidate. Blends technical depth with clear communication, drives outcomes through projects, internships, and community work. Values clarity, collaboration, and continuous learning.")),
     w).
Proof.
  intros [H|H]; unfold call_llm; rewrite H; simpl.
  - reflexivity.
  - rewrite andb_false_r. reflexivity.
Qed.

Lemma call_llm_unconfigured_fallback_witness :
  call_llm no_provider (str "Write a summary") initial_world =
    (Ok (PyStr (str "Professional, impact-driven candidate. Blends technical depth with clear communication, drives outcomes through projects, internships, and community work. Values clarity, collaboration, and continuous learning.")),
     initial_world).
Proof. apply call_llm_unconfigured_fallback. left. reflexivity. Defined.

(** An empty variable counts as absent too. *)
Lemma call_llm_empty_variable env prompt w :
  opt_truthy (AI_PROVIDER_URL env) = false ∨
  opt_truthy (AI_API_KEY env) = false →
  call_llm env prompt w = call_llm no_provider prompt w.
Proof.
  intros [H|H]; unfold call_llm; rewrite H; simpl; [done|].
  by rewrite andb_false_r.
Qed.

(** [call_llm] never raises. *)
Lemma call_llm_total env prompt w :
  ∃ v w', call_llm env prompt w = (Ok v, w').
Proof.
  destruct (opt_truthy (AI_PROVIDER_URL env)) eqn:Hu;
    [destruct (opt_truthy (AI_API_KEY env)) eqn:Hk|].
  - rewrite call_llm_configured by done. eauto.
  - rewrite call_llm_empty_variable by auto. unfold call_llm. simpl. eauto.
  - rewrite call_llm_empty_variable by auto. unfold call_llm. simpl. eauto.
Qed.

(** C5, as amended.  With the provider configured: an unsuccessful status
    gives ["Draft (AI service unavailable): "], the first 280 code points
    of the prompt and ["..."]; an exception of the transport or of the
    decoding gives ["Draft (AI error): "], the same 280 code points and
    ["..."]; and [call_llm] returns a value in every case. *)
Theorem call_llm_absorbs_provider_failure env prompt w :
  configured env →
  (∀ resp,
     requests_post env (http_calls w) (llm_request env prompt) = Ok resp →
     ok resp = false →
     (call_llm env prompt w).1 =
       Ok (PyStr (str "Draft (AI service unavailable): " ++ take 280 prompt
                  ++ str "..."))) ∧
  (∀ e,
     requests_post env (http_calls w) (llm_request env prompt) = Raise e →
     (call_llm env prompt w).1 =
       Ok (PyStr (str "Draft (AI error): " ++ take 280 prompt ++ str "..."))) ∧
  (∀ resp e,
     requests_post env (http_calls w) (llm_request env prompt) = Ok resp →
     ok resp = true →
     json resp = Raise e →
     (call_llm env prompt w).1 =
       Ok (PyStr (str "Draft (AI error): " ++ take 280 prompt ++ str "..."))) ∧
  (∀ resp data e,
     requests_post env (http_calls w) (llm_request env prompt) = Ok resp →
     ok resp = true →
     json resp = Ok data →
     extract prompt data = Raise e →
     (call_llm env prompt w).1 =
       Ok (PyStr (str "Draft (AI error): " ++ take 280 prompt ++ str "..."))) ∧
  (∃ v, (call_llm env prompt w).1 = Ok v).
Proof.
  intros Hc. rewrite call_llm_configured by done. simpl.
  repeat split.
  - intros resp -> ->. done.
  - intros e ->. done.
  - intros resp e -> -> ->. done.
  - intros resp data e -> -> -> ->. done.
  - eauto.
Qed.

Lemma call_llm_absorbs_provider_failure_witness :
  configured provider_refusing ∧
  (call_llm provider_refusing (str "hi") initial_world).1 =
    Ok (PyStr (str "Draft (AI service unavailable): hi...")).
Proof.
  assert (Hc : configured provider_refusing) by (split; reflexivity).
  split; [exact Hc|].
  destruct (call_llm_absorbs_provider_failure provider_refusing (str "hi")
              initial_world Hc) as [H _].
  exact (H _ eq_refl eq_refl).
Defined.

(** C5 as stated fails: the draft is not the prefix followed by the
    truncated prompt, since the code appends ["..."] to it. *)
Lemma call_llm_failure_draft_has_ellipsis :
  configured provider_refusing ∧
  ok (mkResponse false (Raise JSONDecodeError)) = false ∧
  (call_llm provider_refusing (str "hi") initial_world).1 ≠
    Ok (PyStr (str "Draft (AI service unavailable): " ++ take 280 (str "hi"))) ∧
  (call_llm provider_unreachable (str "hi") initial_world).1 ≠
    Ok (PyStr (str "Draft (AI error): " ++ take 280 (str "hi"))).
Proof.
  split; [split; reflexivity|]. split; [reflexivity|].
  split; vm_compute; discriminate.
Qed.

(** ** Splitting *)

Lemma startswith_spec sep s : startswith sep s = true ↔ take (length sep) s = sep.
Proof.
  revert s. induction sep as [|a sep IH]; intros [|b s]; simpl; try done.
  rewrite andb_true_iff, N.eqb_eq, IH. split.
  - by intros [-> ->].
  - by intros [= -> ->].
Qed.

Lemma startswith_occurs sep s : startswith sep s = true ↔ occurs_at sep s 0.
Proof. apply startswith_spec. Qed.

Lemma occurs_at_cons sep c s j :
  occurs_at sep (c :: s) (S j) ↔ occurs_at sep s j.
Proof. done. Qed.

Lemma occurs_at_app sep t rest : occurs_at sep (t ++ sep ++ rest) (length t).
Proof.
  unfold occurs_at. rewrite drop_app_length. by rewrite take_app_length.
Qed.

Lemma upto_before_first sep s : sep ≠ [] → before_first sep s (upto sep s).
Proof.
  intros Hsep. induction s as [|c s IH]; simpl.
  - right. split; [done|]. intros j. unfold occurs_at.
    rewrite drop_nil, take_nil. done.
  - destruct (startswith sep (c :: s)) eqn:Hs.
    + left. apply startswith_spec in Hs.
      exists (drop (length sep) (c :: s)). split.
      * simpl. rewrite <- Hs at 1. by rewrite take_drop.
      * simpl. lia.
    + assert (Hz : ¬ occurs_at sep (c :: s) 0).
      { rewrite <- startswith_occurs. by rewrite Hs. }
      destruct IH as [(rest & Heq & Hno)|[Heq Hno]].
      * left. exists rest. split; [simpl; by rewrite <- Heq|].
        intros [|j] Hj; [done|]. rewrite occurs_at_cons.
        apply Hno. simpl in Hj. lia.
      * right. split; [by rewrite Heq|].
        intros [|j]; [done|]. rewrite occurs_at_cons. apply Hno.
  Qed.

Lemma before_first_unique sep s t1 t2 :
  before_first sep s t1 → before_first sep s t2 → t1 = t2.
Proof.
  assert (Hlen : ∀ a b r1 r2,
    a ++ sep ++ r1 = b ++ sep ++ r2 → length a = length b → a = b).
  { intros a b r1 r2 Heq Hl. by apply app_inj_1 in Heq as [-> _]. }
  intros [(r1 & E1 & N1)|[E1 N1]] [(r2 & E2 & N2)|[E2 N2]].
  - destruct (Nat.lt_trichotomy (length t1) (length t2)) as [Hlt|[Heq|Hgt]].
    + exfalso. apply (N2 _ Hlt). rewrite E1. apply occurs_at_app.
    + apply (Hlen t1 t2 r1 r2); [congruence|done].
    + exfalso. apply (N1 _ Hgt). rewrite E2. apply occurs_at_app.
  - exfalso. apply (N2 (length t1)). rewrite E1. apply occurs_at_app.
  - exfalso. apply (N1 (length t2)). rewrite E2. apply occurs_at_app.
  - congruence.
Qed.

Lemma split_scan_head sep cur s :
  ∃ rest, split_scan sep 0 cur s = (reverse cur ++ upto sep s) :: rest.
Proof.
  revert cur. induction s as [|c s IH]; intros cur; simpl.
  - exists []. by rewrite app_nil_r.
  - destruct (startswith sep (c :: s)).
    + eexists. by rewrite app_nil_r.
    + destruct (IH (c :: cur)) as [rest ->]. exists rest.
      by rewrite reverse_cons, <- app_assoc.
Qed.

Lemma split_first sep s :
  sep ≠ [] →
  (parts ← split sep s; list_getitem parts 0) = Ok (upto sep s).
Proof.
  intros Hsep. unfold split. destruct sep as [|a sep]; [done|].
  destruct (split_scan_head (a :: sep) [] s) as [rest ->]. done.
Qed.

Lemma split_scan_nonempty sep k cur s : split_scan sep k cur s ≠ [].
Proof.
  revert k cur. induction s as [|c s IH]; intros k cur; simpl; [done|].
  destruct k; [|apply IH]. destruct (startswith sep (c :: s)); [done|apply IH].
Qed.

Lemma join_cons sep x rest :
  rest ≠ [] → join sep (x :: rest) = x ++ sep ++ join sep rest.
Proof. by destruct rest. Qed.

(** Joining the pieces with the separator gives the string back: the scan
    loses nothing and cuts at occurrences of the separator only. *)
Lemma join_split_scan sep k cur s :
  sep ≠ [] → join sep (split_scan sep k cur s) = reverse cur ++ drop k s.
Proof.
  intros Hsep. revert k cur.
  induction s as [|c s IH]; intros k cur.
  - simpl. by rewrite drop_nil, app_nil_r.
  - destruct k as [|k]; [|apply IH].
    cbn [split_scan]. destruct (startswith sep (c :: s)) eqn:Hs.
    + rewrite join_cons by apply split_scan_nonempty.
      rewrite IH. apply startswith_spec in Hs.
      destruct sep as [|a sep]; [done|].
      injection Hs as <- Hs.
      replace (length (c :: sep) - 1) with (length sep) by (simpl; lia).
      change (reverse []) with (@nil N). cbn [app drop]. do 2 f_equal.
      rewrite <- Hs at 1. apply take_drop.
    + rewrite IH, reverse_cons, <- app_assoc. done.
Qed.

Lemma join_split sep s parts : split sep s = Ok parts → join sep parts = s.
Proof.
  unfold split. destruct sep as [|a sep]; [done|]. intros [= <-].
  by rewrite join_split_scan.
Qed.

Lemma project_struct_eq p :
  project_struct p =
    Ok [(str "title", PyStr (upto (str " - ") p));
        (str "description", PyStr p);
        (str "impact", PyStr [])].
Proof.
  unfold project_struct.
  pose proof (split_first (str " - ") p) as H.
  destruct (split (str " - ") p) as [parts|]; simpl in *.
  - by rewrite H.
  - by specialize (H ltac:(done)).
Qed.

Lemma experience_struct_eq e :
  experience_struct e =
    Ok [(str "role", PyStr (upto (str " at ") e));
        (str "details", PyStr e);
        (str "achievements", PyList [])].
Proof.
  unfold experience_struct.
  pose proof (split_first (str " at ") e) as H.
  destruct (split (str " at ") e) as [parts|]; simpl in *.
  - by rewrite H.
  - by specialize (H ltac:(done)).
Qed.

Lemma comprehension_total {A B} (f : A → result B) (g : A → B) xs :
  (∀ x, f x = Ok (g x)) → comprehension f xs = Ok (g <$> xs).
Proof.
  intros Hf. induction xs as [|x xs IH]; simpl; [done|].
  by rewrite Hf, IH.
Qed.

(** ** The generation endpoint *)

Section GenerateFacts.
Context (env : Env).
Import AIGenerateInput.

Lemma generate_portfolio_nonblank data w :
  ¬ blank (name data) →
  ∃ p1 p2 summary w1 text w2,
    call_llm env p1 w = (Ok summary, w1) ∧
    call_llm env p2 w1 = (Ok text, w2) ∧
    generate_portfolio env data w = (assemble data summary text, w2).
Proof.
  intros Hnb. unfold generate_portfolio.
  destruct (truthy (PyStr (strip (name data)))) eqn:Ht.
  2:{ apply truthy_str_strip in Ht. done. }
  cbv zeta. change (negb true) with false. cbv iota.
  step_bind.
  match goal with |- context [call_llm env ?p w] =>
    destruct (call_llm_total env p w) as (summary & w1 & H1); exists p
  end.
  rewrite H1.
  step_bind.
  match goal with |- context [call_llm env ?p w1] =>
    destruct (call_llm_total env p w1) as (text & w2 & H2); exists p
  end.
  rewrite H2.
  exists summary, w1, text, w2. split; [done|]. split; [done|].
  unfold assemble, mbind at 1, M_bind at 1, lift at 1.
  destruct (py_split text NL) as [lines|e]; [|done]. simpl.
  unfold mbind at 1, M_bind at 1, lift at 1.
  rewrite (comprehension_total _ _ _ project_struct_eq).
  unfold mbind at 1, M_bind at 1, lift at 1.
  rewrite (comprehension_total _ _ _ experience_struct_eq).
  done.
Qed.

Lemma or_empty_id {A} (xs : list A) : or_empty xs = xs.
Proof. by destruct xs. Qed.

Lemma assemble_text data s t :
  ∃ r, assemble data (PyStr s) (PyStr t) = Ok r.
Proof. unfold assemble. simpl. eauto. Qed.

Lemma assemble_inv data summary text r :
  assemble data summary text = Ok r →
  ∃ s lines,
    summary = PyStr s ∧
    py_split text NL = Ok lines ∧
    r = AIGenerateResult.mk s (skills data)
          ((λ p, [(str "title", PyStr (upto (str " - ") p));
                  (str "description", PyStr p);
                  (str "impact", PyStr [])]) <$> projects data)
          ((λ e, [(str "role", PyStr (upto (str " at ") e));
                  (str "details", PyStr e);
                  (str "achievements", PyList [])]) <$> experience data)
          (education_struct <$> education data)
          (achievements data)
          [(str "email", PyStr (default [] (contact_email data)));
           (str "name", PyStr (strip (name data)))]
          (suggestions_of_lines lines).
Proof.
  unfold assemble. destruct (py_split text NL) as [lines|]; [|done].
  simpl. destruct summary as [| | | |s| | |]; try done.
  simpl. rewrite !or_empty_id. intros [= <-]. eauto.
Qed.

(** With a non-blank name and a client that returns text, the endpoint
    returns a result. *)
Lemma generate_portfolio_returns data w :
  ¬ blank (name data) → returns_text env →
  ∃ r w', generate_portfolio env data w = (Ok r, w').
Proof.
  intros Hnb Htext.
  destruct (generate_portfolio_nonblank data w Hnb)
    as (p1 & p2 & summary & w1 & text & w2 & H1 & H2 & ->).
  destruct (Htext p1 w) as (s & ? & Hs).
  destruct (Htext p2 w1) as (t & ? & Ht).
  rewrite H1 in Hs. rewrite H2 in Ht.
  injection Hs as -> _. injection Ht as -> _.
  destruct (assemble_text data s t) as [r ->]. eauto.
Qed.

Lemma generate_portfolio_inv data w r w' :
  generate_portfolio env data w = (Ok r, w') →
  ¬ blank (name data) ∧
  ∃ summary text, assemble data summary text = Ok r.
Proof.
  intros H.
  assert (Hnb : ¬ blank (name data)).
  { intros Hb. unfold generate_portfolio in H.
    apply truthy_str_strip in Hb. rewrite Hb in H. done. }
  split; [done|].
  destruct (generate_portfolio_nonblank data w Hnb)
    as (p1 & p2 & summary & w1 & text & w2 & _ & _ & Heq).
  rewrite Heq in H. injection H as H _. eauto.
Qed.

End GenerateFacts.

Lemma no_provider_returns_text : returns_text no_provider.
Proof. intros prompt w. unfold call_llm. simpl. eauto. Qed.

Lemma ada_not_blank : ¬ blank (AIGenerateInput.name ada).
Proof. intros H. apply Forall_cons_1 in H as [H _]. discriminate H. Defined.

(** ** Suggestions *)

Lemma suggestions_length lines : length (suggestions_of_lines lines) ≤ 5.
Proof. unfold suggestions_of_lines. rewrite length_take. lia. Qed.

Lemma in_chars_bullet c :
  in_chars (str "- " ++ [BULLET] ++ str " ") c = true ↔ bullet_char c.
Proof.
  unfold bullet_char, BULLET. cbn. rewrite !orb_true_iff, !N.eqb_eq.
  intuition congruence.
Qed.

(** No suggestion starts or ends with a dash, a space or a bullet. *)
Lemma suggestions_stripped lines s :
  s ∈ suggestions_of_lines lines →
  (∀ c t, s = c :: t → ¬ bullet_char c) ∧
  (∀ c t, s = t ++ [c] → ¬ bullet_char c).
Proof.
  unfold suggestions_of_lines. intros Hin.
  apply elem_of_take in Hin as (i & Hi & _).
  apply list_elem_of_lookup_2, list_elem_of_fmap in Hi as (l & -> & _).
  split; intros c t Heq; rewrite <- in_chars_bullet.
  - apply strip_by_head in Heq. by rewrite Heq.
  - apply strip_by_last in Heq. by rewrite Heq.
Qed.

(** C1.  The claim holds for the length and for the leading characters
    ([suggestions_length], [suggestions_stripped]), and fails for the empty
    entry: a line made of dashes only passes the blank-line test, which
    strips whitespace, and is emptied by the bullet strip that follows.
    Here the provider's text has such a line between two suggestions. *)
Theorem generate_suggestion_can_be_empty :
  ¬ blank (AIGenerateInput.name ada) ∧
  ∃ r w',
    generate_portfolio
      (provider_answering
         (str "- Quantify impact" ++ NL ++ str "---" ++ NL
          ++ str "- Use verbs"))
      ada initial_world = (Ok r, w') ∧
    AIGenerateResult.suggestions r = [str "Quantify impact"; []; str "Use verbs"] ∧
    [] ∈ AIGenerateResult.suggestions r.
Proof.
  split; [exact ada_not_blank|].
  eexists _, _. split; [vm_compute; reflexivity|].
  split; [reflexivity|]. simpl. set_solver.
Qed.

(** C3.  A name that is empty or all whitespace is refused with status
    400; no result is built and no request is sent. *)
Theorem generate_rejects_blank_name env data w :
  blank (AIGenerateInput.name data) →
  generate_portfolio env data w =
    (Raise (HTTPException 400 (str "Name is required")), w).
Proof.
  intros Hb. unfold generate_portfolio.
  apply truthy_str_strip in Hb. by rewrite Hb.
Qed.

Lemma generate_rejects_blank_name_witness :
  blank [32; 9; 160]%N ∧
  generate_portfolio (provider_answering (str "x"))
    (AIGenerateInput.mk [32; 9; 160]%N [str "Rocq"] [] [] [] [] None
       (str "professional"))
    initial_world =
    (Raise (HTTPException 400 (str "Name is required")), initial_world).
Proof.
  assert (Hb : blank [32; 9; 160]%N) by (repeat constructor).
  split; [exact Hb|].
  exact (generate_rejects_blank_name _
           (AIGenerateInput.mk [32; 9; 160]%N [str "Rocq"] [] [] [] [] None
              (str "professional")) _ Hb).
Defined.

(** C6.  With a non-blank name, every project is reshaped into its title
    (the text before the first [" - "], or all of it), the string itself
    and an empty impact; every experience into its role (the text before
    the first [" at "], or all of it), the string itself and no
    achievements; every education line into a program with empty
    institution and year; the order of the lines is kept.  The two
    examples of the specification are instances. *)
Theorem generate_reshapes_sections env data w :
  ¬ blank (AIGenerateInput.name data) →
  (returns_text env → ∃ r w', generate_portfolio env data w = (Ok r, w')) ∧
  (∀ r w', generate_portfolio env data w = (Ok r, w') →
     Forall2
       (λ p d, ∃ title,
          before_first (str " - ") p title ∧
          d = [(str "title", PyStr title);
               (str "description", PyStr p);
               (str "impact", PyStr [])])
       (AIGenerateInput.projects data) (AIGenerateResult.projects r) ∧
     Forall2
       (λ e d, ∃ role,
          before_first (str " at ") e role ∧
          d = [(str "role", PyStr role);
               (str "details", PyStr e);
               (str "achievements", PyList [])])
       (AIGenerateInput.experience data) (AIGenerateResult.experience r) ∧
     Forall2
       (λ e d,
          d = [(str "program", PyStr e);
               (str "institution", PyStr []);
               (str "year", PyStr [])])
       (AIGenerateInput.education data) (AIGenerateResult.education r)) ∧
  project_struct (str "Build App - a web app") =
    Ok [(str "title", PyStr (str "Build App"));
        (str "description", PyStr (str "Build App - a web app"));
        (str "impact", PyStr [])] ∧
  experience_struct (str "Engineer at Acme") =
    Ok [(str "role", PyStr (str "Engineer"));
        (str "details", PyStr (str "Engineer at Acme"));
        (str "achievements", PyList [])].
Proof.
  intros Hnb. split; [by apply generate_portfolio_returns|].
  split; [|split; reflexivity].
  intros r w' Hgen.
  apply generate_portfolio_inv in Hgen as (_ & summary & text & Hr).
  apply assemble_inv in Hr as (s & lines & _ & _ & ->). simpl.
  split; [|split].
  - apply Forall2_fmap_r, Forall_Forall2_diag, Forall_forall.
    intros p _. exists (upto (str " - ") p).
    split; [by apply upto_before_first|done].
  - apply Forall2_fmap_r, Forall_Forall2_diag, Forall_forall.
    intros e _. exists (upto (str " at ") e).
    split; [by apply upto_before_first|done].
  - apply Forall2_fmap_r, Forall_Forall2_diag, Forall_forall. done.
Qed.

Lemma generate_reshapes_sections_witness :
  ¬ blank (AIGenerateInput.name ada) ∧
  ∃ r w',
    generate_portfolio no_provider ada initial_world = (Ok r, w') ∧
    AIGenerateResult.projects r =
      [[(str "title", PyStr (str "Build App"));
        (str "description", PyStr (str "Build App - a web app"));
        (str "impact", PyStr [])]].
Proof.
  split; [exact ada_not_blank|].
  destruct (generate_reshapes_sections no_provider ada initial_world
              ada_not_blank) as (Hret & _ & _).
  destruct (Hret no_provider_returns_text) as (r & w' & Hgen).
  exists r, w'. split; [exact Hgen|].
  vm_compute in Hgen. injection Hgen as <- _. reflexivity.
Defined.

(** C7.  With a non-blank name, the result carries the skills and the
    achievements of the input, unchanged and in the same order. *)
Theorem generate_echoes_skills_and_achievements env data w :
  ¬ blank (AIGenerateInput.name data) →
  (returns_text env → ∃ r w', generate_portfolio env data w = (Ok r, w')) ∧
  (∀ r w', generate_portfolio env data w = (Ok r, w') →
     AIGenerateResult.skills r = AIGenerateInput.skills data ∧
     AIGenerateResult.achievements r = AIGenerateInput.achievements data).
Proof.
  intros Hnb. split; [by apply generate_portfolio_returns|].
  intros r w' Hgen.
  apply generate_portfolio_inv in Hgen as (_ & summary & text & Hr).
  apply assemble_inv in Hr as (s & lines & _ & _ & ->). done.
Qed.

Lemma generate_echoes_skills_and_achievements_witness :
  ¬ blank (AIGenerateInput.name ada) ∧
  ∃ r w',
    generate_portfolio no_provider ada initial_world = (Ok r, w') ∧
    AIGenerateResult.skills r = [str "Rocq"; str "OCaml"] ∧
    AIGenerateResult.achievements r = [str "Medal"].
Proof.
  split; [exact ada_not_blank|].
  destruct (generate_echoes_skills_and_achievements no_provider ada
              initial_world ada_not_blank) as (Hret & Hecho).
  destruct (Hret no_provider_returns_text) as (r & w' & Hgen).
  exists r, w'. split; [exact Hgen|].
  exact (Hecho r w' Hgen).
Defined.

(** A draft that is not text makes the endpoint fail, though the name is
    not blank: [call_llm] hands over whatever the field holds. *)
Lemma generate_fails_on_number_draft :
  (generate_portfolio provider_answering_number ada initial_world).1 =
    Raise AttributeError.
Proof. vm_compute. reflexivity. Qed.

(** ** The persistence endpoints *)

Lemma list_getitem_last {A} (xs : list A) :
  xs ≠ [] →
  list_getitem xs (-1) =
    match last xs with Some x => Ok x | None => Raise IndexError end.
Proof.
  destruct xs as [|x xs _] using rev_ind; [done|]. intros _.
  unfold list_getitem. rewrite last_snoc, length_app. simpl.
  replace (-1 + Z.of_nat (length xs + 1))%Z with (Z.of_nat (length xs))
    by lia.
  destruct (Z.ltb_spec (Z.of_nat (length xs)) 0) as [?|_]; [lia|].
  rewrite Nat2Z.id. by rewrite list_lookup_middle.
Qed.

Lemma filter_filter_negb {A} (f : A → bool) (l : list A) :
  List.filter f (List.filter (λ x, negb (f x)) l) = [].
Proof.
  induction l as [|x l IH]; simpl; [done|].
  destruct (f x) eqn:Hx; simpl; [done|]. by rewrite Hx.
Qed.

Lemma filter_negb_id {A} (f : A → bool) (l : list A) :
  List.filter f l = [] → List.filter (λ x, negb (f x)) l = l.
Proof.
  induction l as [|x l IH]; simpl; [done|].
  destruct (f x); simpl; [done|]. intros H. by rewrite IH.
Qed.

Lemma filter_filter_comm {A} (f g : A → bool) (l : list A) :
  List.filter f (List.filter g l) = List.filter g (List.filter f l).
Proof.
  induction l as [|x l IH]; simpl; [done|].
  destruct (g x) eqn:Hg, (f x) eqn:Hf; simpl; rewrite ?Hg, ?Hf, IH; done.
Qed.

Lemma matches_stored u oid p :
  matches (by_username u) (stored oid p) =
    bool_decide (u = SavePortfolioRequest.username p).
Proof. unfold matches. simpl. by rewrite andb_true_r. Qed.

Lemma collection_insert (m : gmap pystr (list dict)) c docs h d n :
  collection (mkWorld h d (<[c := docs]> m) n) c = docs.
Proof. unfold collection. simpl. by rewrite lookup_insert_eq. Qed.

Section StoreFacts.
Context (env : Env) (builtin_str : pyval → pystr).
Import SavePortfolioRequest.

Local Abbreviation save := (save_portfolio env builtin_str).
Local Abbreviation get := (get_portfolio builtin_str).
Local Abbreviation portfolio w := (collection w (str "portfolio")).

(** A save always succeeds: it answers with the new identifier and puts
    the new document after those it left in place. *)
Lemma save_portfolio_run p w :
  ∃ w',
    save p w =
      (Ok [(str "id", PyStr (builtin_str (PyObjectId (next_oid w))));
           (str "username", PyStr (username p))], w') ∧
    portfolio w' = survivors env p w ++ [stored (next_oid w) p] ∧
    next_oid w' = N.succ (next_oid w) ∧
    delete_calls w' =
      (if bool_decide
            (List.filter (matches (by_username (username p)))
               (portfolio w) = [])
       then delete_calls w else S (delete_calls w)).
Proof.
  unfold save_portfolio, survivors, get_documents.
  step_bind. cbv zeta.
  fold (by_username (username p)).
  destruct (bool_decide
              (List.filter (matches (by_username (username p)))
                 (portfolio w) = [])) eqn:Hex; simpl negb; cbv iota.
  - eexists. split; [reflexivity|]. simpl.
    split; [|done]. by rewrite collection_insert.
  - unfold mbind at 1, M_bind at 1, try_except, delete_many.
    destruct (delete_raises env (delete_calls w)) eqn:Hdel.
    + eexists. split; [reflexivity|]. simpl.
      split; [|done]. by rewrite collection_insert.
    + eexists. split; [reflexivity|]. simpl.
      split; [|done]. by rewrite !collection_insert.
Qed.

(** A read answers with the last matching document, its identifier
    rendered as text, and leaves the store as it is. *)
Lemma get_portfolio_run u w :
  get u w =
    (match last (List.filter (matches (by_username u)) (portfolio w)) with
     | None => Raise (HTTPException 404 (str "Portfolio not found"))
     | Some doc =>
         Ok (dict_set (str "_id")
               (PyStr (builtin_str
                         (default PyNone (dict_get (str "_id") doc))))
               doc)
     end, w).
Proof.
  unfold get_portfolio, get_documents.
  step_bind. fold (by_username u).
  case_bool_decide as Hd.
  - by rewrite Hd.
  - unfold mbind, M_bind, lift. rewrite (list_getitem_last _ Hd).
    destruct (last _) eqn:Hl; [done|].
    apply last_None in Hl. done.
Qed.

Lemma get_portfolio_no_match u w :
  List.filter (matches (by_username u)) (portfolio w) = [] →
  get u w = (Raise (HTTPException 404 (str "Portfolio not found")), w).
Proof. intros H. by rewrite get_portfolio_run, H. Qed.

(** A save under another username keeps [u] without a document. *)
Lemma save_keeps_no_match u p w :
  username p ≠ u →
  List.filter (matches (by_username u)) (portfolio w) = [] →
  List.filter (matches (by_username u)) (portfolio (save p w).2) = [].
Proof.
  intros Hne Hno.
  destruct (save_portfolio_run p w) as (w' & Hs & Hc & _ & _).
  rewrite Hs. cbn [snd]. rewrite Hc.
  rewrite List.filter_app. cbn [List.filter]. rewrite matches_stored.
  rewrite bool_decide_eq_false_2 by done. rewrite app_nil_r.
  unfold survivors. cbv zeta. repeat case_match; try done.
  by rewrite filter_filter_comm, Hno.
Qed.

Lemma run_saves_no_match u payloads w :
  Forall (λ p, username p ≠ u) payloads →
  List.filter (matches (by_username u)) (portfolio w) = [] →
  List.filter (matches (by_username u))
    (portfolio (run_saves env builtin_str payloads w)) = [].
Proof.
  intros Hall. revert w.
  induction Hall as [|p rest Hp _ IH]; intros w Hno; simpl; [done|].
  apply IH. by apply save_keeps_no_match.
Qed.

End StoreFacts.

Lemma survivors_functioning env p w :
  delete_raises env (delete_calls w) = false →
  survivors env p w =
    List.filter
      (λ d, negb (matches (by_username (SavePortfolioRequest.username p)) d))
      (collection w (str "portfolio")).
Proof.
  intros Hdel. unfold survivors. cbv zeta. rewrite Hdel.
  case_bool_decide as Hno; [|done]. by rewrite filter_negb_id.
Qed.

Lemma survivors_delete_raises env p w :
  delete_raises env (delete_calls w) = true →
  survivors env p w = collection w (str "portfolio").
Proof.
  intros Hdel. unfold survivors. cbv zeta. rewrite Hdel. by case_bool_decide.
Qed.

(** C2.  With deletions that never fail: after two saves under one
    username, from any state of the store, the read by that username
    answers with the fields of the second payload and the identifier the
    second save returned, and the store holds that one document for the
    username. *)
Theorem save_twice_then_get env builtin_str p1 p2 w :
  (∀ n, delete_raises env n = false) →
  SavePortfolioRequest.username p1 = SavePortfolioRequest.username p2 →
  ∃ r1 w1 r2 w2,
    save_portfolio env builtin_str p1 w = (Ok r1, w1) ∧
    save_portfolio env builtin_str p2 w1 = (Ok r2, w2) ∧
    r2 = [(str "id", PyStr (builtin_str (PyObjectId (next_oid w1))));
          (str "username", PyStr (SavePortfolioRequest.username p2))] ∧
    get_portfolio builtin_str (SavePortfolioRequest.username p2) w2 =
      (Ok ((str "_id", PyStr (builtin_str (PyObjectId (next_oid w1))))
           :: SavePortfolioRequest.model_dump p2), w2) ∧
    List.filter (matches (by_username (SavePortfolioRequest.username p2)))
      (collection w2 (str "portfolio")) = [stored (next_oid w1) p2].
Proof.
  intros Hfun Hsame.
  destruct (save_portfolio_run env builtin_str p1 w) as (w1 & Hs1 & Hc1 & _ & _).
  destruct (save_portfolio_run env builtin_str p2 w1) as (w2 & Hs2 & Hc2 & _ & _).
  rewrite survivors_functioning in Hc2 by apply Hfun.
  assert (Hdocs :
    List.filter (matches (by_username (SavePortfolioRequest.username p2)))
      (collection w2 (str "portfolio")) = [stored (next_oid w1) p2]).
  { rewrite Hc2, List.filter_app, filter_filter_negb.
    cbn [List.filter app]. rewrite matches_stored.
    by rewrite bool_decide_eq_true_2. }
  eexists _, w1, _, w2. split; [exact Hs1|]. split; [exact Hs2|].
  split; [done|]. split; [|exact Hdocs].
  rewrite get_portfolio_run, Hdocs. reflexivity.
Qed.

Lemma save_twice_then_get_witness :
  (∀ n, delete_raises no_provider n = false) ∧
  SavePortfolioRequest.username ada_v1 = SavePortfolioRequest.username ada_v2 ∧
  ∃ r1 w1 r2 w2,
    save_portfolio no_provider str_of_id ada_v1 initial_world = (Ok r1, w1) ∧
    save_portfolio no_provider str_of_id ada_v2 w1 = (Ok r2, w2) ∧
    r2 = [(str "id", PyStr (str_of_id (PyObjectId (next_oid w1))));
          (str "username", PyStr (SavePortfolioRequest.username ada_v2))] ∧
    get_portfolio str_of_id (SavePortfolioRequest.username ada_v2) w2 =
      (Ok ((str "_id", PyStr (str_of_id (PyObjectId (next_oid w1))))
           :: SavePortfolioRequest.model_dump ada_v2), w2) ∧
    List.filter (matches (by_username (SavePortfolioRequest.username ada_v2)))
      (collection w2 (str "portfolio")) = [stored (next_oid w1) ada_v2].
Proof.
  split; [intros n; reflexivity|]. split; [reflexivity|].
  apply (save_twice_then_get no_provider str_of_id ada_v1 ada_v2
           initial_world); [intros n|]; reflexivity.
Defined.

(** C8.  After any sequence of saves from the empty store, none of them
    under the username [u], the read by [u] fails with status 404. *)
Theorem get_unsaved_username_not_found env builtin_str payloads u :
  Forall (λ p, SavePortfolioRequest.username p ≠ u) payloads →
  get_portfolio builtin_str u
    (run_saves env builtin_str payloads initial_world) =
    (Raise (HTTPException 404 (str "Portfolio not found")),
     run_saves env builtin_str payloads initial_world).
Proof.
  intros Hall. apply get_portfolio_no_match.
  by apply run_saves_no_match.
Qed.

Lemma get_unsaved_username_not_found_witness :
  Forall (λ p, SavePortfolioRequest.username p ≠ str "carol")
    [ada_v1; bob; ada_v2] ∧
  get_portfolio str_of_id (str "carol")
    (run_saves failing_deletes str_of_id [ada_v1; bob; ada_v2] initial_world) =
    (Raise (HTTPException 404 (str "Portfolio not found")),
     run_saves failing_deletes str_of_id [ada_v1; bob; ada_v2] initial_world).
Proof.
  assert (H : Forall (λ p, SavePortfolioRequest.username p ≠ str "carol")
                [ada_v1; bob; ada_v2]).
  { repeat constructor; discriminate. }
  split; [exact H|].
  exact (get_unsaved_username_not_found failing_deletes str_of_id
           [ada_v1; bob; ada_v2] (str "carol") H).
Defined.

(** C9.  [/u/{username}] answers as [/api/portfolio/{username}] does, in
    every state of the store: the same document or the same failure, and
    the same state afterwards. *)
Theorem public_portfolio_same_as_get builtin_str username w :
  public_portfolio builtin_str username w = get_portfolio builtin_str username w.
Proof. reflexivity. Qed.

(** C10.  When documents with the username exist and the deletion raises,
    the save still succeeds: it answers with the new identifier, and the
    collection is the old one, stale documents included, followed by the
    new document. *)
Theorem save_swallows_delete_failure env builtin_str p w :
  List.filter (matches (by_username (SavePortfolioRequest.username p)))
    (collection w (str "portfolio")) ≠ [] →
  delete_raises env (delete_calls w) = true →
  ∃ w',
    save_portfolio env builtin_str p w =
      (Ok [(str "id", PyStr (builtin_str (PyObjectId (next_oid w))));
           (str "username", PyStr (SavePortfolioRequest.username p))], w') ∧
    collection w' (str "portfolio") =
      collection w (str "portfolio") ++ [stored (next_oid w) p] ∧
    List.filter (matches (by_username (SavePortfolioRequest.username p)))
      (collection w' (str "portfolio")) =
      List.filter (matches (by_username (SavePortfolioRequest.username p)))
        (collection w (str "portfolio")) ++ [stored (next_oid w) p] ∧
    delete_calls w' = S (delete_calls w).
Proof.
  intros Hex Hdel.
  destruct (save_portfolio_run env builtin_str p w)
    as (w' & Hs & Hc & _ & Hcalls).
  rewrite survivors_delete_raises in Hc by done.
  rewrite bool_decide_eq_false_2 in Hcalls by done.
  exists w'. split; [exact Hs|]. split; [exact Hc|]. split; [|exact Hcalls].
  rewrite Hc, List.filter_app. cbn [List.filter]. rewrite matches_stored.
  by rewrite bool_decide_eq_true_2.
Qed.

Lemma save_swallows_delete_failure_witness :
  List.filter (matches (by_username (SavePortfolioRequest.username ada_v2)))
    (collection after_first_save (str "portfolio")) ≠ [] ∧
  delete_raises failing_deletes (delete_calls after_first_save) = true ∧
  ∃ w',
    save_portfolio failing_deletes str_of_id ada_v2 after_first_save =
      (Ok [(str "id", PyStr (str_of_id (PyObjectId (next_oid after_first_save))));
           (str "username", PyStr (SavePortfolioRequest.username ada_v2))],
       w') ∧
    collection w' (str "portfolio") = [stored 0 ada_v1; stored 1 ada_v2].
Proof.
  assert (Hex :
    List.filter (matches (by_username (SavePortfolioRequest.username ada_v2)))
      (collection after_first_save (str "portfolio")) ≠ []).
  { vm_compute. discriminate. }
  assert (Hdel : delete_raises failing_deletes (delete_calls after_first_save) = true)
    by reflexivity.
  split; [exact Hex|]. split; [exact Hdel|].
  destruct (save_swallows_delete_failure failing_deletes str_of_id ada_v2 after_first_save
              Hex Hdel) as (w' & Hs & Hc & _).
  exists w'. split; [exact Hs|]. rewrite Hc. vm_compute. reflexivity.
Defined.


(** * Further properties *)

(** ** The text-generation client, the successful answers *)

(** X1.  A 200 answer whose body is an object with a truthy ["text"]
    gives that value back as it is, whatever else the object holds. *)
Theorem call_llm_returns_text_field env prompt w resp d v :
  configured env →
  requests_post env (http_calls w) (llm_request env prompt) = Ok resp →
  ok resp = true →
  json resp = Ok (PyDict d) →
  dict_get (str "text") d = Some v →
  truthy v = true →
  (call_llm env prompt w).1 = Ok v.
Proof.
  intros Hc Hp Hok Hj Ht Hv.
  rewrite call_llm_configured by done. simpl. rewrite Hp, Hok, Hj.
  simpl. rewrite Ht. simpl. by rewrite Hv.
Qed.

Lemma call_llm_returns_text_field_witness :
  (call_llm (provider_answering (str "Hello")) (str "hi") initial_world).1 =
    Ok (PyStr (str "Hello")).
Proof.
  apply (call_llm_returns_text_field (provider_answering (str "Hello"))
           (str "hi") initial_world
           (mkResponse true (Ok (PyDict [(str "text", PyStr (str "Hello"))])))
           [(str "text", PyStr (str "Hello"))] (PyStr (str "Hello")));
    try reflexivity.
  split; reflexivity.
Defined.

(** X2.  A 200 answer without a truthy ["text"] but with ["choices"] a
    list whose first element is an object with a ["text"] gives that text
    back. *)
Theorem call_llm_returns_first_choice env prompt w resp d c rest v :
  configured env →
  requests_post env (http_calls w) (llm_request env prompt) = Ok resp →
  ok resp = true →
  json resp = Ok (PyDict d) →
  truthy (default PyNone (dict_get (str "text") d)) = false →
  dict_get (str "choices") d = Some (PyList (PyDict c :: rest)) →
  dict_get (str "text") c = Some v →
  (call_llm env prompt w).1 = Ok v.
Proof.
  intros Hc Hp Hok Hj Ht Hch Hv.
  rewrite call_llm_configured by done. simpl. rewrite Hp, Hok, Hj.
  simpl. rewrite Ht, Hch. simpl. by rewrite Hv.
Qed.

Lemma call_llm_returns_first_choice_witness :
  (call_llm provider_choices (str "hi") initial_world).1 =
    Ok (PyStr (str "Hello")).
Proof.
  apply (call_llm_returns_first_choice provider_choices (str "hi")
           initial_world
           (mkResponse true
              (Ok (PyDict [(str "id", PyStr (str "cmpl-1"));
                           (str "choices",
                            PyList [PyDict [(str "text",
                                             PyStr (str "Hello"))]])])))
           [(str "id", PyStr (str "cmpl-1"));
            (str "choices",
             PyList [PyDict [(str "text", PyStr (str "Hello"))]])]
           [(str "text", PyStr (str "Hello"))] [] (PyStr (str "Hello")));
    try reflexivity.
  split; reflexivity.
Defined.

(** X3.  A 200 answer whose object has neither a truthy ["text"] nor a
    truthy ["choices"] is treated like an unsuccessful status. *)
Theorem call_llm_ok_without_text_or_choices env prompt w resp d :
  configured env →
  requests_post env (http_calls w) (llm_request env prompt) = Ok resp →
  ok resp = true →
  json resp = Ok (PyDict d) →
  truthy (default PyNone (dict_get (str "text") d)) = false →
  truthy (default PyNone (dict_get (str "choices") d)) = false →
  (call_llm env prompt w).1 =
    Ok (PyStr (str "Draft (AI service unavailable): " ++ take 280 prompt
               ++ str "...")).
Proof.
  intros Hc Hp Hok Hj Ht Hch.
  rewrite call_llm_configured by done. simpl. rewrite Hp, Hok, Hj.
  simpl. by rewrite Ht, Hch.
Qed.

Lemma call_llm_ok_without_text_or_choices_witness :
  (call_llm provider_empty_object (str "hi") initial_world).1 =
    Ok (PyStr (str "Draft (AI service unavailable): hi...")).
Proof.
  apply (call_llm_ok_without_text_or_choices provider_empty_object (str "hi")
           initial_world (mkResponse true (Ok (PyDict []))) []);
    try reflexivity.
  split; reflexivity.
Defined.

(** X4.  A 200 answer whose body is not an object (a list, a string, a
    number, null) gives the error draft: the lookup of ["choices"] raises
    inside the [try]. *)
Theorem call_llm_body_not_an_object env prompt w resp data :
  configured env →
  requests_post env (http_calls w) (llm_request env prompt) = Ok resp →
  ok resp = true →
  json resp = Ok data →
  isinstance_dict data = false →
  (call_llm env prompt w).1 =
    Ok (PyStr (str "Draft (AI error): " ++ take 280 prompt ++ str "...")).
Proof.
  intros Hc Hp Hok Hj Hd.
  rewrite call_llm_configured by done. simpl. rewrite Hp, Hok, Hj.
  by destruct data.
Qed.

Lemma call_llm_body_not_an_object_witness :
  (call_llm provider_list (str "hi") initial_world).1 =
    Ok (PyStr (str "Draft (AI error): hi...")).
Proof.
  apply (call_llm_body_not_an_object provider_list (str "hi") initial_world
           (mkResponse true (Ok (PyList [PyStr (str "Hello")])))
           (PyList [PyStr (str "Hello")]));
    try reflexivity.
  split; reflexivity.
Defined.

(** X5.  When ["choices"] is a non-empty list whose first element has no
    ["text"] (the chat format, say), the answer is the error draft. *)
Theorem call_llm_choice_without_text env prompt w resp d first rest :
  configured env →
  requests_post env (http_calls w) (llm_request env prompt) = Ok resp →
  ok resp = true →
  json resp = Ok (PyDict d) →
  truthy (default PyNone (dict_get (str "text") d)) = false →
  dict_get (str "choices") d = Some (PyList (first :: rest)) →
  (∀ c, first = PyDict c → dict_get (str "text") c = None) →
  (call_llm env prompt w).1 =
    Ok (PyStr (str "Draft (AI error): " ++ take 280 prompt ++ str "...")).
Proof.
  intros Hc Hp Hok Hj Ht Hch Hno.
  rewrite call_llm_configured by done. simpl. rewrite Hp, Hok, Hj.
  simpl. rewrite Ht, Hch. simpl.
  destruct first as [| | | | | |c|]; try done.
  simpl. by rewrite (Hno c eq_refl).
Qed.

Lemma call_llm_choice_without_text_witness :
  (call_llm provider_chat (str "hi") initial_world).1 =
    Ok (PyStr (str "Draft (AI error): hi...")).
Proof.
  apply (call_llm_choice_without_text provider_chat (str "hi") initial_world
           (mkResponse true
              (Ok (PyDict [(str "choices",
                            PyList [PyDict [(str "message",
                                             PyDict [(str "content",
                                                      PyStr (str "Hello"))])]])])))
           [(str "choices",
             PyList [PyDict [(str "message",
                              PyDict [(str "content", PyStr (str "Hello"))])]])]
           (PyDict [(str "message",
                     PyDict [(str "content", PyStr (str "Hello"))])]) []);
    try reflexivity.
  - split; reflexivity.
  - intros c [= <-]. reflexivity.
Defined.



(** X7.  A failure draft is short: at most 315 code points, however long
    the prompt. *)
Theorem call_llm_failure_draft_bounded env prompt w :
  configured env →
  (∀ resp,
     requests_post env (http_calls w) (llm_request env prompt) = Ok resp →
     ok resp = false) →
  ∃ draft,
    (call_llm env prompt w).1 = Ok (PyStr draft) ∧ length draft ≤ 315.
Proof.
  intros Hc Hfail. rewrite call_llm_configured by done. simpl.
  destruct (requests_post _ _ _) as [resp|e].
  - rewrite (Hfail resp eq_refl). eexists. split; [reflexivity|].
    rewrite !length_app, length_take.
    change (length (str "Draft (AI service unavailable): ")) with 32.
    change (length (str "...")) with 3. lia.
  - eexists. split; [reflexivity|].
    rewrite !length_app, length_take.
    change (length (str "Draft (AI error): ")) with 18.
    change (length (str "...")) with 3. lia.
Qed.

Lemma call_llm_failure_draft_bounded_witness :
  ∃ draft,
    (call_llm provider_refusing (replicate 1000 97%N) initial_world).1 =
      Ok (PyStr draft) ∧ length draft ≤ 315.
Proof.
  apply call_llm_failure_draft_bounded.
  - split; reflexivity.
  - intros resp [= <-]. reflexivity.
Defined.

(** ** The generation endpoint, beyond the reshaping *)

Lemma generate_portfolio_prompts env data w :
  ¬ blank (AIGenerateInput.name data) →
  ∃ summary w1 text w2,
    call_llm env (summary_prompt data) w = (Ok summary, w1) ∧
    call_llm env suggestions_prompt w1 = (Ok text, w2) ∧
    generate_portfolio env data w = (assemble data summary text, w2).
Proof.
  intros Hnb.
  destruct (call_llm_total env (summary_prompt data) w)
    as (summary & w1 & H1).
  destruct (call_llm_total env suggestions_prompt w1) as (text & w2 & H2).
  exists summary, w1, text, w2. split; [done|]. split; [done|].
  unfold generate_portfolio.
  destruct (truthy (PyStr (strip (AIGenerateInput.name data)))) eqn:Ht.
  2:{ apply truthy_str_strip in Ht. done. }
  unfold summary_prompt, suggestions_prompt in *.
  cbv zeta in *. change (negb true) with false. cbv iota.
  step_bind. rewrite H1. step_bind. rewrite H2.
  unfold assemble, mbind at 1, M_bind at 1, lift at 1.
  destruct (py_split text NL) as [lines|e]; [|done]. simpl.
  unfold mbind at 1, M_bind at 1, lift at 1.
  rewrite (comprehension_total _ _ _ project_struct_eq).
  unfold mbind at 1, M_bind at 1, lift at 1.
  rewrite (comprehension_total _ _ _ experience_struct_eq).
  done.
Qed.

Lemma assemble_raise data summary text e :
  assemble data summary text = Raise e →
  (e = AttributeError ∧ ∀ s, text ≠ PyStr s) ∨
  (e = ValidationError ∧ ∀ s, summary ≠ PyStr s).
Proof.
  unfold assemble.
  destruct text as [| | | |t| | |]; simpl;
    try (intros [= <-]; left; split; [done|intros s; discriminate]).
  destruct summary as [| | | |s| | |]; simpl; try done;
    intros [= <-]; right; split; try done; intros s; discriminate.
Qed.

Lemma not_blank_dec s : {blank s} + {¬ blank s}.
Proof.
  destruct (truthy (PyStr (strip s))) eqn:Ht.
  - right. intros Hb. apply truthy_str_strip in Hb. congruence.
  - left. by apply truthy_str_strip.
Qed.

(** X8.  In every result, there are at most five suggestions and none
    starts or ends with a dash, a space or a bullet. *)
Theorem generate_suggestions_bounded_and_stripped env data w r w' :
  generate_portfolio env data w = (Ok r, w') →
  length (AIGenerateResult.suggestions r) ≤ 5 ∧
  ∀ s, s ∈ AIGenerateResult.suggestions r →
    (∀ c t, s = c :: t → ¬ bullet_char c) ∧
    (∀ c t, s = t ++ [c] → ¬ bullet_char c).
Proof.
  intros Hgen.
  apply generate_portfolio_inv in Hgen as (_ & summary & text & Hr).
  apply assemble_inv in Hr as (s & lines & _ & _ & ->). simpl.
  split; [apply suggestions_length|]. apply suggestions_stripped.
Qed.

Lemma generate_suggestions_bounded_and_stripped_witness :
  ∃ r w',
    generate_portfolio
      (provider_answering
         (concat (replicate 7 (str "- Use active verbs -" ++ NL))))
      ada initial_world = (Ok r, w') ∧
    length (AIGenerateResult.suggestions r) ≤ 5 ∧
    ∀ s, s ∈ AIGenerateResult.suggestions r →
      (∀ c t, s = c :: t → ¬ bullet_char c) ∧
      (∀ c t, s = t ++ [c] → ¬ bullet_char c).
Proof.
  destruct (generate_portfolio _ ada initial_world) as [[r|e] w'] eqn:Hgen.
  - exists r, w'. split; [reflexivity|].
    exact (generate_suggestions_bounded_and_stripped _ _ _ _ _ Hgen).
  - exfalso. vm_compute in Hgen. discriminate Hgen.
Defined.

(** X9.  A suggestion can be empty only because of a line made of dashes,
    spaces and bullets alone: when every line that is not blank has some
    other code point, no suggestion is empty. *)
Theorem suggestions_nonempty_without_bullet_lines lines :
  (∀ l, l ∈ lines → ¬ blank l → ∃ c, c ∈ l ∧ ¬ bullet_char c) →
  [] ∉ suggestions_of_lines lines.
Proof.
  intros Hlines Hin. unfold suggestions_of_lines in Hin.
  apply elem_of_take in Hin as (i & Hi & _).
  apply list_elem_of_lookup_2, list_elem_of_fmap in Hi as (l & Hl & Hin).
  apply list_elem_of_In, List.filter_In in Hin as [Hin Hnb].
  symmetry in Hl. apply strip_by_nil in Hl.
  destruct (Hlines l) as (c & Hc & Hnot).
  - by apply list_elem_of_In.
  - intros Hb. apply truthy_str_strip in Hb. congruence.
  - apply Hnot, in_chars_bullet.
    rewrite Forall_forall in Hl. by apply Hl.
Qed.

Lemma suggestions_nonempty_without_bullet_lines_witness :
  [] ∉ suggestions_of_lines [str "- Add metrics"; []; str "* Use verbs"].
Proof.
  apply suggestions_nonempty_without_bullet_lines.
  intros l Hl Hnb.
  apply list_elem_of_In in Hl. simpl in Hl.
  destruct Hl as [<-|[<-|[<-|[]]]].
  - exists 65%N. split; [apply list_elem_of_In; simpl; tauto|].
    unfold bullet_char, BULLET. intros [?|[?|?]]; discriminate.
  - exfalso. apply Hnb. constructor.
  - exists 42%N. split; [apply list_elem_of_In; simpl; tauto|].
    unfold bullet_char, BULLET. intros [?|[?|?]]; discriminate.
Defined.

(** X10.  Without a provider, a request with a name that is not blank
    always succeeds, sends nothing, and both the summary and the only
    suggestion are the fallback paragraph. *)
Theorem generate_without_provider env data w :
  opt_truthy (AI_PROVIDER_URL env) = false ∨
  opt_truthy (AI_API_KEY env) = false →
  ¬ blank (AIGenerateInput.name data) →
  ∃ r,
    generate_portfolio env data w = (Ok r, w) ∧
    AIGenerateResult.summary r = str "Professional, impact-driven candidate. Blends technical depth with clear communication, drives outcomes through projects, internships, and community work. Values clarity, collaboration, and continuous learning." ∧
    AIGenerateResult.suggestions r = [AIGenerateResult.summary r].
Proof.
  intros Hun Hnb.
  destruct (generate_portfolio_prompts env data w Hnb)
    as (summary & w1 & text & w2 & H1 & H2 & ->).
  rewrite call_llm_empty_variable in H1 by done.
  rewrite call_llm_empty_variable in H2 by done.
  unfold call_llm in H1, H2. simpl in H1, H2.
  injection H1 as <- <-. injection H2 as <- <-.
  eexists. split; [reflexivity|]. split; vm_compute; reflexivity.
Qed.

Lemma generate_without_provider_witness :
  ∃ r,
    generate_portfolio no_provider ada initial_world = (Ok r, initial_world) ∧
    AIGenerateResult.summary r = str "Professional, impact-driven candidate. Blends technical depth with clear communication, drives outcomes through projects, internships, and community work. Values clarity, collaboration, and continuous learning." ∧
    AIGenerateResult.suggestions r = [AIGenerateResult.summary r].
Proof.
  apply generate_without_provider; [left; reflexivity|exact ada_not_blank].
Defined.

(** X11.  The contact of a result holds the e-mail address, or the empty
    string when there is none, and the name without the whitespace around
    it: what is cut off on both sides is whitespace only, and what is left
    is not empty and neither starts nor ends with whitespace. *)
Theorem generate_contact_is_trimmed env data w r w' :
  generate_portfolio env data w = (Ok r, w') →
  ∃ before name after,
    AIGenerateResult.contact r =
      [(str "email",
        PyStr (match AIGenerateInput.contact_email data with
               | Some email => email
               | None => []
               end));
       (str "name", PyStr name)] ∧
    AIGenerateInput.name data = before ++ name ++ after ∧
    blank before ∧ blank after ∧ name ≠ [] ∧
    (∀ c t, name = c :: t → isspace c = false) ∧
    (∀ c t, name = t ++ [c] → isspace c = false).
Proof.
  intros Hgen.
  apply generate_portfolio_inv in Hgen as (Hnb & summary & text & Hr).
  apply assemble_inv in Hr as (s & lines & _ & _ & ->). simpl.
  destruct (lstrip_by_suffix isspace (AIGenerateInput.name data))
    as (before & Hbefore & Hblank1).
  destruct (rstrip_by_prefix isspace
              (lstrip_by isspace (AIGenerateInput.name data)))
    as (after & Hafter & Hblank2).
  exists before, (strip (AIGenerateInput.name data)), after.
  split; [by destruct (AIGenerateInput.contact_email data)|].
  split; [rewrite Hbefore at 1; by rewrite Hafter at 1|].
  split; [done|]. split; [done|].
  split; [by rewrite strip_blank|].
  split; [apply strip_by_head|apply strip_by_last].
Qed.

Lemma generate_contact_is_trimmed_witness :
  ∃ r w' before name after,
    generate_portfolio no_provider ada_bare initial_world = (Ok r, w') ∧
    AIGenerateResult.contact r =
      [(str "email", PyStr (str "ada@example.org"));
       (str "name", PyStr name)] ∧
    AIGenerateInput.name ada_bare = before ++ name ++ after ∧
    blank before ∧ blank after ∧ name ≠ [] ∧
    (∀ c t, name = c :: t → isspace c = false) ∧
    (∀ c t, name = t ++ [c] → isspace c = false).
Proof.
  destruct (generate_portfolio no_provider ada_bare initial_world)
    as [[r|e] w'] eqn:Hgen.
  - destruct (generate_contact_is_trimmed _ _ _ _ _ Hgen)
      as (before & name & after & H).
    exists r, w', before, name, after. split; [reflexivity|exact H].
  - exfalso. vm_compute in Hgen. discriminate Hgen.
Defined.

(** X12.  The drafts depend on the tone, the trimmed name and the skills
    only: two inputs that agree on these get the same summary and the
    same suggestions from any provider, whatever their projects,
    experience, education, achievements and e-mail address are. *)
Theorem generate_drafts_ignore_sections env data1 data2 w r1 w1 :
  AIGenerateInput.tone data1 = AIGenerateInput.tone data2 →
  strip (AIGenerateInput.name data1) = strip (AIGenerateInput.name data2) →
  AIGenerateInput.skills data1 = AIGenerateInput.skills data2 →
  generate_portfolio env data1 w = (Ok r1, w1) →
  ∃ r2,
    generate_portfolio env data2 w = (Ok r2, w1) ∧
    AIGenerateResult.summary r2 = AIGenerateResult.summary r1 ∧
    AIGenerateResult.suggestions r2 = AIGenerateResult.suggestions r1.
Proof.
  intros Htone Hname Hskills Hgen.
  assert (Hnb1 : ¬ blank (AIGenerateInput.name data1)).
  { by apply generate_portfolio_inv in Hgen as [? _]. }
  assert (Hnb2 : ¬ blank (AIGenerateInput.name data2)).
  { by rewrite <- strip_blank, <- Hname, strip_blank. }
  assert (Hprompt : summary_prompt data1 = summary_prompt data2).
  { unfold summary_prompt. by rewrite Htone, Hname, Hskills. }
  destruct (generate_portfolio_prompts env data1 w Hnb1)
    as (s1 & wa & t1 & wb & Ha1 & Hb1 & Hg1).
  destruct (generate_portfolio_prompts env data2 w Hnb2)
    as (s2 & wc & t2 & wd & Ha2 & Hb2 & Hg2).
  rewrite Hprompt, Ha2 in Ha1. injection Ha1 as <- <-.
  rewrite Hb2 in Hb1. injection Hb1 as <- <-.
  rewrite Hg1 in Hgen. injection Hgen as Hr1 <-.
  apply assemble_inv in Hr1 as (s & lines & -> & Hsplit & ->).
  rewrite Hg2. unfold assemble. rewrite Hsplit. simpl.
  eexists. split; [reflexivity|]. done.
Qed.

Lemma generate_drafts_ignore_sections_witness :
  ∃ r1 r2 w1,
    generate_portfolio (provider_answering (str "- Add metrics")) ada
      initial_world = (Ok r1, w1) ∧
    generate_portfolio (provider_answering (str "- Add metrics")) ada_bare
      initial_world = (Ok r2, w1) ∧
    AIGenerateResult.summary r2 = AIGenerateResult.summary r1 ∧
    AIGenerateResult.suggestions r2 = AIGenerateResult.suggestions r1.
Proof.
  destruct (generate_portfolio (provider_answering (str "- Add metrics")) ada
              initial_world) as [[r1|e] w1] eqn:Hgen.
  - destruct (generate_drafts_ignore_sections _ ada ada_bare _ _ _
                eq_refl eq_refl eq_refl Hgen) as (r2 & H2 & Hs).
    exists r1, r2, w1. split; [reflexivity|]. split; [exact H2|exact Hs].
  - exfalso. vm_compute in Hgen. discriminate Hgen.
Defined.



(** X14.  The endpoint answers 400 exactly when the name is blank. *)
Theorem generate_bad_request_iff_blank env data w :
  (generate_portfolio env data w).1 =
    Raise (HTTPException 400 (str "Name is required")) ↔
  blank (AIGenerateInput.name data).
Proof.
  split.
  - intros Hgen. destruct (not_blank_dec (AIGenerateInput.name data))
      as [Hb|Hnb]; [done|]. exfalso.
    destruct (generate_portfolio_prompts env data w Hnb)
      as (summary & w1 & text & w2 & _ & _ & Heq).
    rewrite Heq in Hgen. simpl in Hgen.
    apply assemble_raise in Hgen as [[? _]|[? _]]; discriminate.
  - intros Hb. unfold generate_portfolio.
    apply truthy_str_strip in Hb. by rewrite Hb.
Qed.



(** ** The rewording endpoint *)


(** ** The persistence endpoints, beyond the two-save scenario *)

Lemma pyval_eqb_str u v : pyval_eqb (PyStr u) v = true ↔ v = PyStr u.
Proof.
  destruct v; simpl; try (split; [done|discriminate]).
  unfold pystr_eqb. rewrite bool_decide_eq_true. split; congruence.
Qed.

Lemma matches_by_username u d :
  matches (by_username u) d = true ↔
  dict_get (str "username") d = Some (PyStr u).
Proof.
  unfold matches, by_username. cbn [forallb fst snd].
  rewrite andb_true_r.
  destruct (dict_get (str "username") d) as [v|].
  - rewrite pyval_eqb_str. split; congruence.
  - split; discriminate.
Qed.

Lemma matches_other_username u u' d :
  u ≠ u' → matches (by_username u) d = true →
  matches (by_username u') d = false.
Proof.
  intros Hne Hm. apply matches_by_username in Hm.
  destruct (matches (by_username u') d) eqn:Hm'; [|done].
  apply matches_by_username in Hm'. congruence.
Qed.

Lemma filter_filter_implied {A} (f g : A → bool) (l : list A) :
  (∀ x, f x = true → g x = true) →
  List.filter f (List.filter g l) = List.filter f l.
Proof.
  intros Himp. induction l as [|x l IH]; simpl; [done|].
  destruct (f x) eqn:Hf.
  - rewrite (Himp x Hf). simpl. by rewrite Hf, IH.
  - destruct (g x); simpl; rewrite ?Hf; done.
Qed.

Lemma dict_get_set_eq k v d : dict_get k (dict_set k v d) = Some v.
Proof.
  induction d as [|[k' v'] d IH]; simpl.
  - unfold pystr_eqb. by rewrite bool_decide_eq_true_2.
  - destruct (pystr_eqb k k') eqn:Hk; simpl; rewrite ?Hk; [|done].
    unfold pystr_eqb. by rewrite bool_decide_eq_true_2.
Qed.

Lemma dict_get_set_ne k k' v d :
  k ≠ k' → dict_get k (dict_set k' v d) = dict_get k d.
Proof.
  intros Hne. induction d as [|[k'' v''] d IH]; simpl.
  - unfold pystr_eqb. by rewrite bool_decide_eq_false_2.
  - destruct (pystr_eqb k' k'') eqn:Hk; simpl; [|by rewrite IH].
    unfold pystr_eqb in *. apply bool_decide_eq_true in Hk. subst k''.
    by rewrite !bool_decide_eq_false_2.
Qed.

(** The keys of a dict stay as they are when a key it has is assigned. *)
Lemma dict_set_keys k v d :
  is_Some (dict_get k d) → (dict_set k v d).*1 = d.*1.
Proof.
  induction d as [|[k' v'] d IH]; cbn [dict_set dict_get];
    [by intros [? ?]|].
  destruct (pystr_eqb k k') eqn:Hk.
  - unfold pystr_eqb in Hk. apply bool_decide_eq_true in Hk. by subst.
  - intros H. rewrite !fmap_cons. f_equal. by apply IH.
Qed.

Section StoreFacts2.
Context (env : Env) (builtin_str : pyval → pystr).
Import SavePortfolioRequest.

Local Abbreviation save := (save_portfolio env builtin_str).
Local Abbreviation get := (get_portfolio builtin_str).
Local Abbreviation portfolio w := (collection w (str "portfolio")).

Lemma save_other_username_filter u p w :
  u ≠ username p →
  List.filter (matches (by_username u)) (portfolio (save p w).2) =
  List.filter (matches (by_username u)) (portfolio w).
Proof.
  intros Hne.
  destruct (save_portfolio_run env builtin_str p w)
    as (w' & Hs & Hc & _ & _).
  rewrite Hs. cbn [snd]. rewrite Hc, List.filter_app.
  cbn [List.filter]. rewrite matches_stored.
  rewrite bool_decide_eq_false_2 by done. rewrite app_nil_r.
  unfold survivors. cbv zeta. repeat case_match; try done.
  apply filter_filter_implied. intros d Hd.
  by rewrite (matches_other_username u (username p) d).
Qed.

Lemma save_functioning_filter p w :
  delete_raises env (delete_calls w) = false →
  List.filter (matches (by_username (username p))) (portfolio (save p w).2) =
    [stored (next_oid w) p].
Proof.
  intros Hdel.
  destruct (save_portfolio_run env builtin_str p w)
    as (w' & Hs & Hc & _ & _).
  rewrite Hs. cbn [snd]. rewrite Hc, survivors_functioning by done.
  rewrite List.filter_app, filter_filter_negb. cbn [List.filter app].
  rewrite matches_stored. by rewrite bool_decide_eq_true_2.
Qed.

Lemma save_delete_calls p w :
  delete_calls w ≤ delete_calls (save p w).2.
Proof.
  destruct (save_portfolio_run env builtin_str p w)
    as (w' & Hs & _ & _ & Hcalls).
  rewrite Hs. cbn [snd]. rewrite Hcalls. case_bool_decide; lia.
Qed.

End StoreFacts2.

(** X17.  A read after a save returns what was just saved, with the
    identifier the save answered, whether or not the deletion of the
    older documents worked: the newest document is the one read. *)
Theorem save_then_get_reads_own_write env builtin_str p w :
  ∃ w',
    save_portfolio env builtin_str p w =
      (Ok [(str "id", PyStr (builtin_str (PyObjectId (next_oid w))));
           (str "username", PyStr (SavePortfolioRequest.username p))], w') ∧
    get_portfolio builtin_str (SavePortfolioRequest.username p) w' =
      (Ok ((str "_id", PyStr (builtin_str (PyObjectId (next_oid w))))
           :: SavePortfolioRequest.model_dump p), w').
Proof.
  destruct (save_portfolio_run env builtin_str p w)
    as (w' & Hs & Hc & _ & _).
  exists w'. split; [exact Hs|].
  rewrite get_portfolio_run, Hc, List.filter_app. cbn [List.filter].
  rewrite matches_stored, bool_decide_eq_true_2 by done.
  rewrite last_snoc. reflexivity.
Qed.

(** X18.  A save under one username does not change what a read by any
    other username returns, whatever the deletion does. *)
Theorem save_leaves_other_usernames env builtin_str p u w :
  u ≠ SavePortfolioRequest.username p →
  (get_portfolio builtin_str u (save_portfolio env builtin_str p w).2).1 =
  (get_portfolio builtin_str u w).1.
Proof.
  intros Hne. rewrite !get_portfolio_run. cbn [fst].
  by rewrite save_other_username_filter.
Qed.

Lemma save_leaves_other_usernames_witness :
  (get_portfolio str_of_id (str "ada")
     (save_portfolio failing_deletes str_of_id bob after_first_save).2).1 =
  (get_portfolio str_of_id (str "ada") after_first_save).1.
Proof.
  apply (save_leaves_other_usernames failing_deletes str_of_id bob
           (str "ada") after_first_save).
  discriminate.
Defined.

(** X19.  When deletions work, a save leaves exactly one document for its
    username, however many there were before. *)
Theorem save_replaces_all_duplicates env builtin_str p w :
  delete_raises env (delete_calls w) = false →
  List.filter (matches (by_username (SavePortfolioRequest.username p)))
    (collection (save_portfolio env builtin_str p w).2 (str "portfolio")) =
    [stored (next_oid w) p].
Proof. apply save_functioning_filter. Qed.

Lemma save_replaces_all_duplicates_witness :
  length (List.filter (matches (by_username (str "ada")))
            (collection duplicated_world (str "portfolio"))) = 2 ∧
  List.filter (matches (by_username (str "ada")))
    (collection (save_portfolio no_provider str_of_id ada_v2
                   duplicated_world).2 (str "portfolio")) =
    [stored (next_oid duplicated_world) ada_v2].
Proof.
  split; [vm_compute; reflexivity|].
  apply (save_replaces_all_duplicates no_provider str_of_id ada_v2
           duplicated_world).
  reflexivity.
Defined.

(** X20.  One document per username is an invariant of saving while
    deletions work: if no username has more than one document, none has
    after any sequence of saves. *)
Theorem saves_keep_one_document_per_username env builtin_str payloads w :
  (∀ n, delete_raises env n = false) →
  (∀ u, length (List.filter (matches (by_username u))
                  (collection w (str "portfolio"))) ≤ 1) →
  ∀ u, length (List.filter (matches (by_username u))
                 (collection (run_saves env builtin_str payloads w)
                    (str "portfolio"))) ≤ 1.
Proof.
  intros Hfun. revert w.
  induction payloads as [|p rest IH]; intros w Hinv; simpl; [done|].
  apply IH. intros u.
  destruct (decide (u = SavePortfolioRequest.username p)) as [->|Hne].
  - by rewrite save_functioning_filter.
  - by rewrite save_other_username_filter.
Qed.

Lemma saves_keep_one_document_per_username_witness :
  length (List.filter (matches (by_username (str "ada")))
            (collection
               (run_saves no_provider str_of_id [ada_v1; bob; ada_v2]
                  initial_world)
               (str "portfolio"))) ≤ 1.
Proof.
  apply (saves_keep_one_document_per_username no_provider str_of_id
           [ada_v1; bob; ada_v2] initial_world).
  - intros n. reflexivity.
  - intros u. unfold collection, initial_world. cbn [collections].
    rewrite lookup_empty. simpl. lia.
Defined.

(** X21.  What a read returns is a stored document of the requested
    username with its identifier turned into text: the ["username"] of the
    answer is the one asked for, its ["_id"] is a string, every other
    field is as stored, and the store is as before. *)
Theorem get_portfolio_answer_shape builtin_str u w doc w' :
  get_portfolio builtin_str u w = (Ok doc, w') →
  w' = w ∧
  dict_get (str "username") doc = Some (PyStr u) ∧
  (∃ id, dict_get (str "_id") doc = Some (PyStr id)) ∧
  ∃ d, d ∈ collection w (str "portfolio") ∧
       ∀ k, k ≠ str "_id" → dict_get k doc = dict_get k d.
Proof.
  rewrite get_portfolio_run.
  destruct (last _) as [d|] eqn:Hlast; [|done].
  intros [= <- <-]. split; [done|].
  apply last_Some in Hlast as [l' Hl'].
  assert (Hin : In d (List.filter (matches (by_username u))
                        (collection w (str "portfolio")))).
  { rewrite Hl'. apply in_or_app. right. by left. }
  apply List.filter_In in Hin as [Hin Hm].
  apply matches_by_username in Hm.
  split; [by rewrite dict_get_set_ne|].
  split; [eexists; apply dict_get_set_eq|].
  exists d. split; [by apply list_elem_of_In|].
  intros k Hk. by apply dict_get_set_ne.
Qed.

Lemma get_portfolio_answer_shape_witness :
  ∃ doc,
    get_portfolio str_of_id (str "ada") duplicated_world =
      (Ok doc, duplicated_world) ∧
    dict_get (str "username") doc = Some (PyStr (str "ada")) ∧
    dict_get (str "_id") doc = Some (PyStr (str "000000000000000000000001")).
Proof.
  destruct (get_portfolio str_of_id (str "ada") duplicated_world)
    as [[doc|e] w'] eqn:Hget.
  - destruct (get_portfolio_answer_shape _ _ _ _ _ Hget)
      as (-> & Hu & _ & _).
    exists doc. split; [reflexivity|]. split; [exact Hu|].
    vm_compute in Hget. injection Hget as <-. reflexivity.
  - exfalso. vm_compute in Hget. discriminate Hget.
Defined.


(** ** The upload endpoint *)

Lemma upload_file_run builtin_str file w :
  upload_file builtin_str file w =
    (let meta :=
       [(str "filename", py_optional (UploadFile.filename file));
        (str "content_type", py_optional (UploadFile.content_type file));
        (str "size",
         PyInt (Z.of_nat (length (UploadFile.content file))))] in
     (Ok [(str "file_id", PyStr (builtin_str (PyObjectId (next_oid w))));
          (str "meta", PyDict meta)],
      mkWorld (http_calls w) (delete_calls w)
        (<[str "uploads" :=
             collection w (str "uploads")
             ++ [(str "_id", PyObjectId (next_oid w)) :: meta]]>
           (collections w))
        (N.succ (next_oid w)))).
Proof. reflexivity. Qed.

(** X23.  An upload does not change what a read of a portfolio returns:
    it writes to the collection of uploads only. *)
Theorem upload_leaves_portfolios builtin_str file u w :
  (get_portfolio builtin_str u (upload_file builtin_str file w).2).1 =
  (get_portfolio builtin_str u w).1.
Proof.
  rewrite !get_portfolio_run, upload_file_run. cbn [fst snd].
  unfold collection at 1. cbn [collections].
  rewrite lookup_insert_ne by discriminate. done.
Qed.

(** X24.  Nothing of the file's bytes is kept but their number: two files
    with the same name, type and length give the same answer and the same
    store. *)
Theorem upload_keeps_metadata_only builtin_str file1 file2 w :
  UploadFile.filename file1 = UploadFile.filename file2 →
  UploadFile.content_type file1 = UploadFile.content_type file2 →
  length (UploadFile.content file1) = length (UploadFile.content file2) →
  upload_file builtin_str file1 w = upload_file builtin_str file2 w.
Proof.
  intros Hname Htype Hlen. rewrite !upload_file_run.
  by rewrite Hname, Htype, Hlen.
Qed.

Lemma upload_keeps_metadata_only_witness :
  UploadFile.content file_a ≠ UploadFile.content file_b ∧
  upload_file str_of_id file_a initial_world =
  upload_file str_of_id file_b initial_world.
Proof.
  split; [discriminate|].
  apply upload_keeps_metadata_only; reflexivity.
Defined.

(** Every upload adds one document to the uploads, after those already
    there, with the name, the type and the size in bytes; the same file
    uploaded twice is stored twice. *)
Lemma upload_appends_one_document builtin_str file w :
  collection (upload_file builtin_str file w).2 (str "uploads") =
    collection w (str "uploads")
    ++ [[(str "_id", PyObjectId (next_oid w));
         (str "filename", py_optional (UploadFile.filename file));
         (str "content_type", py_optional (UploadFile.content_type file));
         (str "size", PyInt (Z.of_nat (length (UploadFile.content file))))]] ∧
  length (collection
            (upload_file builtin_str file
               (upload_file builtin_str file w).2).2 (str "uploads")) =
    length (collection w (str "uploads")) + 2.
Proof.
  rewrite !upload_file_run. cbn [snd]. cbv zeta.
  rewrite !collection_insert. split; [done|].
  rewrite !length_app. simpl. lia.
Qed.

(** ** The diagnostic endpoint *)

(** X25.  The diagnostic always has the same six fields in the same
    order, and its ["backend"] always says running. *)
Theorem test_database_fields d :
  (test_database d).*1 =
    [str "backend"; str "database"; str "database_url"; str "database_name";
     str "connection_status"; str "collections"] ∧
  dict_get (str "backend") (test_database d) =
    Some (PyStr ([CHECK_MARK] ++ str " Running")).
Proof.
  unfold test_database.
  destruct (db_present d); [|split; reflexivity].
  destruct (list_collection_names d); split; reflexivity.
Qed.

(** X26.  The diagnostic lists at most ten collections: the first ten
    names the store gives, or none when there is no store or the listing
    fails. *)
Theorem test_database_lists_at_most_ten d :
  ∃ names,
    dict_get (str "collections") (test_database d) =
      Some (PyList (PyStr <$> names)) ∧
    length names ≤ 10 ∧
    names = match db_present d, list_collection_names d with
            | true, inr collections => take 10 collections
            | _, _ => []
            end.
Proof.
  unfold test_database.
  destruct (db_present d); [|exists []; repeat split; simpl; lia].
  destruct (list_collection_names d) as [message|collections].
  - exists []. repeat split; simpl; lia.
  - exists (take 10 collections). split; [reflexivity|].
    split; [|done]. rewrite length_take. lia.
Qed.

(** X27.  When the listing raises, the exception is reported and not
    raised: ["database"] holds the error text cut to 80 code points,
    while ["connection_status"] still says connected and no collection
    is listed. *)
Theorem test_database_reports_listing_failure d message :
  db_present d = true →
  list_collection_names d = inl message →
  dict_get (str "database") (test_database d) =
    Some (PyStr ([CROSS_MARK] ++ str " Error: " ++ take 80 message)) ∧
  dict_get (str "connection_status") (test_database d) =
    Some (PyStr (str "Connected")) ∧
  dict_get (str "collections") (test_database d) = Some (PyList []).
Proof.
  intros Hdb Hlist. unfold test_database. rewrite Hdb, Hlist.
  repeat split; reflexivity.
Qed.

Lemma test_database_reports_listing_failure_witness :
  dict_get (str "database") (test_database diagnostics_failing) =
    Some (PyStr ([CROSS_MARK] ++ str " Error: "
                 ++ take 80 (concat (replicate 10 (str "timed out "))
                             ++ str "after 30 seconds"))) ∧
  dict_get (str "connection_status") (test_database diagnostics_failing) =
    Some (PyStr (str "Connected")) ∧
  dict_get (str "collections") (test_database diagnostics_failing) =
    Some (PyList []).
Proof.
  apply (test_database_reports_listing_failure diagnostics_failing);
    reflexivity.
Defined.

(** X28.  The two variables are reported as found in the environment: the
    URL only as set or not set, never its value; the name as it is; and an
    empty variable counts as not set. *)
Theorem test_database_reports_environment d :
  db_present d = true →
  dict_get (str "database_url") (test_database d) =
    Some (PyStr (match DATABASE_URL d with
                 | Some (_ :: _) => [CHECK_MARK] ++ str " Set"
                 | _ => [CROSS_MARK] ++ str " Not Set"
                 end)) ∧
  dict_get (str "database_name") (test_database d) =
    Some (PyStr (match DATABASE_NAME d with
                 | Some (c :: name) => c :: name
                 | _ => [CROSS_MARK] ++ str " Not Set"
                 end)).
Proof.
  intros Hdb. unfold test_database. rewrite Hdb.
  destruct (DATABASE_URL d) as [[|? ?]|], (DATABASE_NAME d) as [[|? ?]|],
    (list_collection_names d); split; reflexivity.
Qed.

Lemma test_database_reports_environment_witness :
  dict_get (str "database_url") (test_database diagnostics_working) =
    Some (PyStr ([CHECK_MARK] ++ str " Set")) ∧
  dict_get (str "database_name") (test_database diagnostics_working) =
    Some (PyStr (str "portfolio_db")).
Proof.
  apply (test_database_reports_environment diagnostics_working).
  reflexivity.
Defined.
